(** * Night-check report generator: a shallow embedding of [app.py]

    The development follows the source file top to bottom: the Python
    string primitives the program relies on, the two identifier
    extractors, the site-label decoder, the image resolver, the render
    context, and the date-filtered batch export.

    Conventions.
    - A Python [str] is a [string]; every [ascii] stands for one code
      point in the range 0..255.  Whitespace is what [str.isspace]
      accepts in that range.
    - A pandas row is a finite map from column names to cells.
    - External collaborators (HTTP, the templating engine, the PDF
      converter, the file system) are parameters of a section; they act
      on an abstract world and may raise. *)

From Stdlib Require Import ZArith NArith Ascii DecimalString Floats.SpecFloat.
From stdpp Require Import gmap strings list sorting.

(** String concatenation computes under [simpl] in this file. *)
#[local] Arguments String.append !_ _ / : simpl nomatch.

(** ** Python string primitives *)

Module Py.

(** [str.isspace] on one character (code points below 256). *)
Definition isspace (c : ascii) : bool :=
  let n := N_of_ascii c in
  ((9 <=? n) && (n <=? 13) || (28 <=? n) && (n <=? 32)
   || (n =? 133) || (n =? 160))%N.

Fixpoint lstrip (s : string) : string :=
  match s with
  | "" => ""
  | String c s' => if isspace c then lstrip s' else s
  end.

Fixpoint rstrip (s : string) : string :=
  match s with
  | "" => ""
  | String c s' =>
      match rstrip s' with
      | "" => if isspace c then "" else String c ""
      | r => String c r
      end
  end.

(** [s.strip()] *)
Definition strip (s : string) : string := rstrip (lstrip s).

(** [s.split(sep, maxsplit)] for a one-character separator, as a
    non-empty list given by its head and tail.  [maxsplit = None] is
    Python's default (no bound). *)
Fixpoint split_go (sep : ascii) (maxsplit : option nat) (s : string)
  : string * list string :=
  match s with
  | "" => ("", [])
  | String c s' =>
      if Ascii.eqb c sep then
        match maxsplit with
        | Some 0 => (s, [])
        | Some (S n) => ("", let '(h, t) := split_go sep (Some n) s' in h :: t)
        | None => ("", let '(h, t) := split_go sep None s' in h :: t)
        end
      else
        let '(h, t) := split_go sep maxsplit s' in (String c h, t)
  end.

Definition split (sep : ascii) (maxsplit : option nat) (s : string) : list string :=
  let '(h, t) := split_go sep maxsplit s in h :: t.

(** [s.startswith(p)] *)
Definition startswith (p s : string) : bool := String.prefix p s.

(** [s.replace(old, new)] for a non-empty [old]: scan left to right,
    [skip] counts the characters of a match still to be dropped. *)
Fixpoint replace_go (old new : string) (skip : nat) (s : string) : string :=
  match s with
  | "" => ""
  | String c s' =>
      match skip with
      | S k => replace_go old new k s'
      | 0 =>
          if startswith old s
          then new +:+ replace_go old new (String.length old - 1) s'
          else String c (replace_go old new 0 s')
      end
  end.

Definition replace (old new s : string) : string := replace_go old new 0 s.

(** Number of occurrences of a character. *)
Fixpoint count (sep : ascii) (s : string) : nat :=
  match s with
  | "" => 0
  | String c s' => (if Ascii.eqb c sep then 1 else 0) + count sep s'
  end.

(** Every character satisfies [p]. *)
Fixpoint all (p : ascii → bool) (s : string) : bool :=
  match s with
  | "" => true
  | String c s' => p c && all p s'
  end.

(** The first character, if any, is not whitespace. *)
Definition clean_head (s : string) : Prop :=
  match s with "" => True | String c _ => isspace c = false end.

(** Truth value of a [str]. *)
Definition truthy (s : string) : bool :=
  match s with "" => false | _ => true end.

(** [sep.join(parts)] *)
Fixpoint join (sep : string) (parts : list string) : string :=
  match parts with
  | [] => ""
  | [p] => p
  | p :: rest => p +:+ sep +:+ join sep rest
  end.

End Py.

(** ** Regular expressions of the shape [lit(class+)lit]

    Both patterns of the program are a literal, one capturing group
    [[class]+] and a literal (possibly empty).  [re.search] returns the
    leftmost match; the group is greedy and gives characters back until
    the closing literal matches. *)

Module Re.

(** The class [[a-zA-Z0-9-_]] (also written [[A-Za-z0-9_-]]). *)
Definition id_char (c : ascii) : bool :=
  let n := N_of_ascii c in
  ((97 <=? n) && (n <=? 122) || (65 <=? n) && (n <=? 90)
   || (48 <=? n) && (n <=? 57) || (n =? 45) || (n =? 95))%N.

(** [(class+)post] at the start of [s]; the captured group. *)
Fixpoint group_plus (cls : ascii → bool) (post : string) (s : string)
  : option string :=
  match s with
  | "" => None
  | String c s' =>
      if cls c then
        match group_plus cls post s' with
        | Some g => Some (String c g)
        | None => if Py.startswith post s' then Some (String c "") else None
        end
      else None
  end.

Fixpoint drop (n : nat) (s : string) : string :=
  match n, s with
  | S k, String _ s' => drop k s'
  | _, _ => s
  end.

Definition match_at (pre : string) (cls : ascii → bool) (post s : string)
  : option string :=
  if Py.startswith pre s
  then group_plus cls post (drop (String.length pre) s)
  else None.

(** [re.search(pattern, s)] followed by [.group(1)]; [None] when there
    is no match. *)
Fixpoint search (pre : string) (cls : ascii → bool) (post s : string)
  : option string :=
  match match_at pre cls post s with
  | Some g => Some g
  | None =>
      match s with
      | "" => None
      | String _ s' => search pre cls post s'
      end
  end.

End Re.

(** ** Cells of the fetched table *)

(** What a cell of a row can hold after the CSV load, plus [None]. *)
Inductive cell :=
| CStr (s : string)
| CInt (z : Z)
| CFloat (f : spec_float)
| CBool (b : bool)
| CNone.

(** [pd.isna(v)] on a scalar. *)
Definition isna (v : cell) : bool :=
  match v with
  | CFloat S754_nan => true
  | CNone => true
  | _ => false
  end.

(** ** Spreadsheet identifier *)

Definition extract_sheet_id (sheet_input : string) : string :=
  match Re.search "/spreadsheets/d/" Re.id_char "" sheet_input with
  | Some g => g
  | None => Py.strip sheet_input
  end.

(** ** Site name parser *)

Definition parse_site_name (raw : cell) : string * string * string :=
  match raw with
  | CStr raw =>
      let parts := Py.split "-"%char (Some 2) raw in
      if length parts <? 3 then ("", "", Py.strip raw)
      else (Py.strip (nth 0 parts ""), Py.strip (nth 1 parts ""),
            Py.strip (nth 2 parts ""))
  | _ => ("", "", "")
  end.

(** ** Drive file identifier *)

Definition extract_drive_file_id (url : string) : string :=
  match Re.search "id=" Re.id_char "" url with
  | Some g => g
  | None =>
      match Re.search "/d/" Re.id_char "/" url with
      | Some g => g
      | None => ""
      end
  end.

(** ** Exceptions and effects *)

(** Exceptions range over subclasses of Python's [Exception]. *)
Inductive exn_class :=
| OSError
| UnrecognizedImageError
| OtherException.

Record exn := Exn { exn_cls : exn_class; exn_msg : string }.

Inductive outcome (A : Type) :=
| Ret (a : A)
| Raise (e : exn).
Arguments Ret {A} a.
Arguments Raise {A} e.

(** A computation acts on the world and returns or raises. *)
Definition IO (W A : Type) : Type := W → outcome A * W.

Global Instance IO_ret {W} : MRet (IO W) := λ A a w, (Ret a, w).

Global Instance IO_bind {W} : MBind (IO W) := λ A B f m w,
  match m w with
  | (Ret a, w') => f a w'
  | (Raise e, w') => (Raise e, w')
  end.

(** [try: body except <class>: handler] *)
Definition try_except {W A} (body : IO W A) (catches : exn → bool)
    (handler : exn → IO W A) : IO W A := λ w,
  match body w with
  | (Raise e, w') => if catches e then handler e w' else (Raise e, w')
  | r => r
  end.

(** [for x in xs: s = body(s, x)] *)
Fixpoint for_each {W X S} (xs : list X) (body : S → X → IO W S) (s : S)
  : IO W S :=
  match xs with
  | [] => mret s
  | x :: xs' => s' ← body s x; for_each xs' body s'
  end.

Definition except_Exception (e : exn) : bool := true.

Definition except_OSError (e : exn) : bool :=
  match exn_cls e with OSError => true | _ => false end.

Definition except_UnrecognizedImageError (e : exn) : bool :=
  match exn_cls e with UnrecognizedImageError => true | _ => false end.

Definition bytes := list Byte.byte.

(** An HTTP response; header names are kept lower-cased, which is how
    the case-insensitive header dictionary compares them. *)
Record response := Response {
  status_code : Z;
  headers : gmap string string;
  content : bytes
}.

(** A value of the render context: a scalar or the list of inline images. *)
Inductive ctx_value (Inline : Type) :=
| Scalar (v : cell)
| Images (imgs : list Inline).
Arguments Scalar {Inline} v.
Arguments Images {Inline} imgs.

(** The external collaborators of the program. *)
Class External := {
  World : Type;
  Tpl : Type;
  Inline : Type;
  (** [requests.get(url, timeout=15)] *)
  requests_get : string → IO World response;
  (** [DocxTemplate(path)] *)
  docx_template : string → IO World Tpl;
  (** [InlineImage(tpl, img, width=Inches(2.5))] *)
  inline_image : Tpl → bytes → IO World Inline;
  (** [tpl.render(context)] *)
  tpl_render : Tpl → gmap string (ctx_value Inline) → IO World unit;
  (** [tpl.save(buf); buf.seek(0)] *)
  tpl_save : Tpl → IO World bytes;
  (** [NamedTemporaryFile(delete=False, suffix=...)], the write, and [.name] *)
  named_temporary_file : string → bytes → IO World string;
  (** [docx2pdf.convert(src, dst)] *)
  convert : string → string → IO World unit;
  (** [open(path, "rb").read()] *)
  read_binary : string → IO World bytes;
  (** [os.remove(path)] *)
  os_remove : string → IO World unit;
  (** [Path(path).exists()] *)
  path_exists : string → IO World bool;
  (** [repr] of a float, not modelled *)
  float_repr : spec_float → string
}.

(** ** Rows *)

(** [row.get(key, default)] *)
Definition row_get (row : gmap string cell) (key : string) (dflt : cell) : cell :=
  default dflt (row !! key).

(** Truth value of a cell. *)
Definition cell_truthy (v : cell) : bool :=
  match v with
  | CStr s => Py.truthy s
  | CInt z => negb (z =? 0)%Z
  | CFloat (S754_zero _) => false
  | CFloat _ => true
  | CBool b => b
  | CNone => false
  end.

(** [str(v)] *)
Definition py_str `{External} (v : cell) : string :=
  match v with
  | CStr s => s
  | CInt z => NilZero.string_of_int (Z.to_int z)
  | CFloat f => float_repr f
  | CBool true => "True"
  | CBool false => "False"
  | CNone => "None"
  end.

(** ** Drive image downloader *)

Definition download_drive_image `{External} (url : string)
  : IO World (option bytes) :=
  let file_id := extract_drive_file_id url in
  if negb (Py.truthy file_id) then mret None
  else
    let download_url :=
      "https://drive.google.com/uc?export=download&id=" +:+ file_id in
    try_except
      (resp ← requests_get download_url;
       if (status_code resp =? 200)%Z then
         let content_type := default "" (headers resp !! "content-type") in
         if Py.startswith "image/" content_type
         then mret (Some (content resp))
         else mret None
       else mret None)
      except_Exception
      (λ _, mret None).

(** The references of an "Images" field:
    [[u.strip() for u in images_raw.split(",") if u.strip()]] *)
Definition image_urls (images_raw : string) : list string :=
  Py.strip <$>
    List.filter (λ u, Py.truthy (Py.strip u)) (Py.split ","%char None images_raw).

(** Lines 126-132 of [render_docx_for_row]. *)
Definition resolve_images `{External} (images_raw : string)
  : IO World (list bytes) :=
  if Py.truthy images_raw then
    for_each (image_urls images_raw)
      (λ image_objs url,
         img_bytes ← download_drive_image url;
         mret (match img_bytes with
               | Some b => image_objs ++ [b]
               | None => image_objs
               end))
      []
  else mret [].

(** What the resolver is specified to return.  A response is accepted
    when it arrived, its status is 200 and its declared content type
    starts with [image/]. *)
Definition accepted (r : outcome response) : option bytes :=
  match r with
  | Ret resp =>
      if (status_code resp =? 200)%Z
         && Py.startswith "image/" (default "" (headers resp !! "content-type"))
      then Some (content resp)
      else None
  | Raise _ => None
  end.

(** The accepted payloads of a list of references, in their order: a
    reference without an identifier is skipped without a fetch, any
    other is fetched once and kept when accepted. *)
Fixpoint accepted_payloads `{External} (refs : list string) (w : World)
  : list bytes * World :=
  match refs with
  | [] => ([], w)
  | u :: refs' =>
      match extract_drive_file_id u with
      | "" => accepted_payloads refs' w
      | file_id =>
          let '(r, w1) :=
            requests_get
              ("https://drive.google.com/uc?export=download&id=" +:+ file_id) w in
          let '(rest, w2) := accepted_payloads refs' w1 in
          (option_list (accepted r) ++ rest, w2)
      end
  end.

(** ** Render context *)

(** The dictionary literal of lines 135-150. *)
Definition build_context (zone unit_code site_name_clean : string)
    (row : gmap string cell) : gmap string cell :=
  list_to_map [
    ("zone", CStr zone);
    ("unit_code", CStr unit_code);
    ("site_name", CStr site_name_clean);
    ("date", row_get row "Date" (CStr ""));
    ("time", row_get row "Time" (CStr ""));
    ("attendance_register",
      row_get row "Documentation Check [Attendance Register]" (CStr ""));
    ("handling_register",
      row_get row "Documentation Check [Handling / Taking Over Register]" (CStr ""));
    ("material_register",
      row_get row "Documentation Check [Visitor Log Register]" (CStr ""));
    ("grooming", row_get row "Performance Check [Grooming]" (CStr ""));
    ("alertness", row_get row "Performance Check [Alertness]" (CStr ""));
    ("post_discipline", row_get row "Performance Check [Post Discipline]" (CStr ""));
    ("overall_rating", row_get row "Performance Check [Overall Rating]" (CStr ""));
    ("observation", row_get row "Observation" (CStr ""));
    ("inspected_by", row_get row "Inspected By" (CStr ""))
  ].

(** One turn of the cleaning loop of lines 153-157. *)
Definition clean_step (context : gmap string cell) (kv : string * cell)
  : gmap string cell :=
  let '(k, v) := kv in
  if isna v then <[k := CStr ""]> context
  else match v with
       | CNone => <[k := CStr ""]> context
       | _ => context
       end.

(** [for k, v in list(context.items()): ...] *)
Definition clean_context (context : gmap string cell) : gmap string cell :=
  foldl clean_step context (map_to_list context).

(** The scalar part of the context of a row, as handed to the template. *)
Definition row_context (row : gmap string cell) : gmap string cell :=
  let '(zone, unit_code, site_name_clean) :=
    parse_site_name (row_get row "Site Name" (CStr "")) in
  clean_context (build_context zone unit_code site_name_clean row).

(** The keys of the dictionary literal. *)
Definition context_keys : list string :=
  [ "zone"; "unit_code"; "site_name"; "date"; "time"; "attendance_register";
    "handling_register"; "material_register"; "grooming"; "alertness";
    "post_discipline"; "overall_rating"; "observation"; "inspected_by" ].

(** The columns the row-derived keys are read from. *)
Definition context_columns : list (string * string) :=
  [ ("date", "Date"); ("time", "Time");
    ("attendance_register", "Documentation Check [Attendance Register]");
    ("handling_register", "Documentation Check [Handling / Taking Over Register]");
    ("material_register", "Documentation Check [Visitor Log Register]");
    ("grooming", "Performance Check [Grooming]");
    ("alertness", "Performance Check [Alertness]");
    ("post_discipline", "Performance Check [Post Discipline]");
    ("overall_rating", "Performance Check [Overall Rating]");
    ("observation", "Observation"); ("inspected_by", "Inspected By") ].

(** A missing-value marker becomes the empty string. *)
Definition normalize (v : cell) : cell := if isna v then CStr "" else v.

(** The context handed to [tpl.render]: [context["images"] = images_inline]. *)
Definition final_context `{External} (row : gmap string cell)
    (images_inline : list Inline) : gmap string (ctx_value Inline) :=
  <["images" := Images images_inline]> (Scalar <$> row_context row).

(** ** Document generation for one row *)

Definition render_docx_for_row `{External} (row : gmap string cell)
    (template_path : string) : IO World bytes :=
  let images_raw :=
    let v := row_get row "Images" (CStr "") in
    Py.strip (py_str (if cell_truthy v then v else CStr "")) in
  image_objs ← resolve_images images_raw;
  tpl ← docx_template template_path;
  images_inline ←
    for_each image_objs
      (λ images_inline img,
         try_except
           (i ← inline_image tpl img; mret (images_inline ++ [i]))
           except_UnrecognizedImageError
           (λ _, mret images_inline))
      [];
  _ ← tpl_render tpl (final_context row images_inline);
  tpl_save tpl.

(** ** Dates and the loaded table *)

Record date := Date { year : nat; month : nat; day : nat }.

Global Instance date_eq_dec : EqDecision date.
Proof. solve_decision. Defined.

Definition date_ltb (a b : date) : bool :=
  (year a <? year b)
  || (year a =? year b) && ((month a <? month b)
                            || (month a =? month b) && (day a <? day b)).

(** A parsed timestamp: its calendar date and the time within the day. *)
Record Timestamp := { ts_date : date; ts_nanos : N }.

(** A row of the loaded table: its cells and the [Date_parsed] column
    added at load time ([None] is NaT).  Every table kept in the session
    carries that column. *)
Record Row := {
  cells : gmap string cell;
  Date_parsed : option Timestamp
}.

(** [df["Date_parsed"].dt.date], row by row *)
Definition dt_date (r : Row) : option date := ts_date <$> Date_parsed r.

(** [df["Date_parsed"].dt.date == selected_date] *)
Definition date_mask (df : list Row) (selected_date : date) : list bool :=
  (λ r, match dt_date r with
        | Some d => bool_decide (d = selected_date)
        | None => false
        end) <$> df.

(** [df[mask]] *)
Fixpoint boolean_index (df : list Row) (mask : list bool) : list Row :=
  match df, mask with
  | r :: df', b :: mask' =>
      if b then r :: boolean_index df' mask' else boolean_index df' mask'
  | _, _ => []
  end.

Definition filter_by_date (df : list Row) (selected_date : date) : list Row :=
  boolean_index df (date_mask df selected_date).

(** The three kinds of rows with respect to a selected date. *)
Definition date_matches (selected_date : date) (r : Row) : Prop :=
  dt_date r = Some selected_date.

Definition date_differs (selected_date : date) (r : Row) : Prop :=
  match dt_date r with
  | Some d => d ≠ selected_date
  | None => False
  end.

Definition date_unparseable (r : Row) : Prop := Date_parsed r = None.

Global Instance date_matches_dec d r : Decision (date_matches d r).
Proof. unfold date_matches. apply _. Defined.

Global Instance date_differs_dec d r : Decision (date_differs d r).
Proof. unfold date_differs. destruct (dt_date r); apply _. Defined.

Global Instance date_unparseable_dec r : Decision (date_unparseable r).
Proof. unfold date_unparseable. destruct (Date_parsed r); [right|left]; done. Defined.

Fixpoint insert_date (d : date) (l : list date) : list date :=
  match l with
  | [] => [d]
  | x :: l' =>
      if date_ltb d x then d :: l
      else if bool_decide (d = x) then l
      else x :: insert_date d l'
  end.

(** [sorted(df["Date_parsed"].dropna().dt.date.unique())] *)
Definition valid_dates (df : list Row) : list date :=
  foldr insert_date [] (omap dt_date df).

(** ["%0<width>d" % n] *)
Definition fmt_d (width n : nat) : string :=
  let s := NilEmpty.string_of_uint (Nat.to_uint n) in
  String.concat "" (replicate (width - String.length s) "0") +:+ s.

(** [str(d)] for a date: ISO format. *)
Definition isoformat (d : date) : string :=
  fmt_d 4 (year d) +:+ "-" +:+ fmt_d 2 (month d) +:+ "-" +:+ fmt_d 2 (day d).

(** ** Archive entries *)

(** Every space of a text turned into an underscore. *)
Fixpoint spaces_to_underscores (s : string) : string :=
  match s with
  | "" => ""
  | String c s' =>
      String (if Ascii.eqb c " " then "_"%char else c) (spaces_to_underscores s')
  end.

(** Lines 277-282: the entry name of a row. *)
Definition entry_filename (selected_date : date) (row : gmap string cell)
  : string :=
  let '(zone, unit_code, sitename) :=
    parse_site_name (row_get row "Site Name" (CStr "Site")) in
  let site_slug :=
    Py.replace " " "_" (if Py.truthy sitename then sitename else "Site") in
  isoformat selected_date +:+ "_" +:+ site_slug +:+ ".pdf".

Definition template_path : string := "template.docx".

(** The body of the loop of lines 258-295; [zipf] is the archive written
    so far, as its entries in write order.  The loop also computes a
    [time_slug] (lines 279-280) that nothing reads; it is left out. *)
Definition export_row `{External} (selected_date : date)
    (zipf : list (string * bytes)) (r : Row)
  : IO World (list (string * bytes)) :=
  let row := cells r in
  docx_buf ← render_docx_for_row row template_path;
  tmp_docx_path ← named_temporary_file ".docx" docx_buf;
  let tmp_pdf_path := Py.replace ".docx" ".pdf" tmp_docx_path in
  _ ← convert tmp_docx_path tmp_pdf_path;
  pdf_bytes ← read_binary tmp_pdf_path;
  let filename := entry_filename selected_date row in
  let zipf := zipf ++ [(filename, pdf_bytes)] in
  _ ← try_except (os_remove tmp_docx_path) except_OSError (λ _, mret ());
  _ ← try_except (os_remove tmp_pdf_path) except_OSError (λ _, mret ());
  mret zipf.

(** A row fails in world [w] with [e], leaving [w']: rendering its
    document raises, or the conversion of the rendered document raises. *)
Definition row_fails `{External} (r : Row) (w : World) (e : exn) (w' : World)
  : Prop :=
  render_docx_for_row (cells r) template_path w = (Raise e, w')
  ∨ ∃ docx_buf wa tmp_docx_path wb,
      render_docx_for_row (cells r) template_path w = (Ret docx_buf, wa)
      ∧ named_temporary_file ".docx" docx_buf wa = (Ret tmp_docx_path, wb)
      ∧ convert tmp_docx_path (Py.replace ".docx" ".pdf" tmp_docx_path) wb
        = (Raise e, w').

(** ** The page *)

Inductive ui_event :=
| St_info (msg : string)
| St_error (msg : string)
| St_warning (msg : string)
| St_exception (e : exn)
| St_subheader (msg : string)
| St_date_input (label : string) (value min_value max_value : date)
| St_dataframe (df : list Row)
| St_button (label : string)
| St_download_button (label : string) (data : list (string * bytes))
    (file_name mime : string).

(** Lines 255-306: what a click on "Generate Report" does. *)
Definition generate_report `{External} (df_date : list Row)
    (selected_date : date) : IO World (list ui_event) := λ w,
  match for_each df_date (export_row selected_date) [] w with
  | (Ret zip_buffer, w') =>
      (Ret [St_download_button "⬇️ Download ZIP (PDF)" zip_buffer
              ("night_checks_" +:+ isoformat selected_date +:+ ".zip")
              "application/zip"], w')
  | (Raise e, w') =>
      (Ret [St_error "Error generating PDF ZIP:"; St_exception e], w')
  end.

(** Lines 217-306 of [main]: the page below the sidebar.  [session] is
    the table kept in the session, [selected_date] what the date widget
    returns and [clicked] what the button returns in this run. *)
Definition main_content `{External} (session : option (list Row))
    (selected_date : date) (clicked : bool) : IO World (list ui_event) :=
  match session with
  | None =>
      mret [St_info "Use the sidebar to fetch data from Google Sheets to continue."]
  | Some df =>
      match valid_dates df with
      | [] => mret [St_error "No valid dates found in 'Date' column."]
      | first :: _ as dates =>
          let picker :=
            St_date_input "Select Date" (List.last dates first) first
              (List.last dates first) in
          let df_date := filter_by_date df selected_date in
          let header := St_subheader ("Records for " +:+ isoformat selected_date) in
          match df_date with
          | [] => mret [picker; header; St_warning "No records for this date."]
          | _ =>
              found ← path_exists template_path;
              if negb found then
                mret [picker; header; St_dataframe df_date;
                      St_error "❌ template.docx not found in project folder."]
              else if clicked then
                out ← generate_report df_date selected_date;
                mret ([picker; header; St_dataframe df_date;
                       St_button "Generate Report"] ++ out)
              else
                mret [picker; header; St_dataframe df_date;
                      St_button "Generate Report"]
          end
      end
  end.

(** ** Loading the sheet *)

(** A fetched table: its column names and its rows, each row holding a
    cell for every column. *)
Record DataFrame := {
  columns : list string;
  records : list (gmap string cell)
}.

(** The collaborators of the loader, acting on the same kind of world. *)
Class Pandas (W : Type) := {
  (** [pd.read_csv(url)] *)
  read_csv : string → IO W DataFrame;
  (** [pd.to_datetime(column, errors="coerce")] *)
  to_datetime : list cell → IO W (list (option Timestamp))
}.

(** The address [load_sheet_via_csv] reads from (lines 40-43). *)
Definition base_url (sheet_input : string) (gid : option string) : string :=
  let sheet_id := extract_sheet_id sheet_input in
  let base_url :=
    "https://docs.google.com/spreadsheets/d/" +:+ sheet_id +:+ "/export?format=csv" in
  match gid with
  | Some g => if Py.truthy g then base_url +:+ "&gid=" +:+ g else base_url
  | None => base_url
  end.

Definition load_sheet_via_csv `{Pandas W} (sheet_input : string)
    (gid : option string) : IO W DataFrame :=
  read_csv (base_url sheet_input gid).

(** [df[name]]: the cells of a column, top to bottom. *)
Definition column (df : DataFrame) (name : string) : list cell :=
  (λ row, row_get row name (CFloat S754_nan)) <$> records df.

(** [df["Date_parsed"] = parsed]: the table with the parsed dates
    beside its rows. *)
Definition with_date_parsed (df : DataFrame) (parsed : list (option Timestamp))
  : list Row :=
  zip_with (λ row p, {| cells := row; Date_parsed := p |}) (records df) parsed.

(** What a run of the page shows: the events of the main area, and the
    success message of the loader. *)
Inductive page_event :=
| Shown (e : ui_event)
| St_success (msg : string).

(** Lines 199-214: what a click on "Fetch Data" does to the session. *)
Definition fetch_data `{Pandas W} (session : option (list Row))
    (sheet_input gid : string)
  : IO W (option (list Row) * list page_event) :=
  if negb (Py.truthy sheet_input) then
    mret (session, [Shown (St_error "Please enter Google Sheet URL or ID.")])
  else
    try_except
      (df ← load_sheet_via_csv sheet_input
              (if Py.truthy gid then Some gid else None);
       if bool_decide ("Date" ∈ columns df) then
         parsed ← to_datetime (column df "Date");
         mret (Some (with_date_parsed df parsed),
               [St_success "✅ Data loaded successfully."])
       else
         mret (session, [Shown (St_error "Column 'Date' not found in sheet.")]))
      except_Exception
      (λ e, mret (session, [Shown (St_error "Failed fetching sheet:");
                            Shown (St_exception e)])).

(** One run of [main]: the loader when its button was clicked, then the
    page below the sidebar on the session as it then is.  The session
    returned is the one the next run starts from. *)
Definition main `{External} `{!Pandas World} (session : option (list Row))
    (fetch_clicked : bool) (sheet_input gid : string)
    (selected_date : date) (clicked : bool)
  : IO World (option (list Row) * list page_event) :=
  loaded ← (if fetch_clicked then fetch_data session sheet_input gid
            else mret (session, []));
  shown ← main_content loaded.1 selected_date clicked;
  mret (loaded.1, loaded.2 ++ (Shown <$> shown)).

(** The calendar order of dates, as a proposition. *)
Definition date_lt (a b : date) : Prop := date_ltb a b = true.

(** ** A scripted set of collaborators

    Used to run the program on concrete inputs.  The world is the log of
    the external calls made so far.  Drive serves an image for the
    identifier [GOOD], a web page for [PAGE], fails to connect for
    [DOWN] and answers 404 otherwise; the template refuses to render a
    row whose observation is [unrenderable]. *)
Module Demo.

Definition drive : string := "https://drive.google.com/uc?export=download&id=".

Definition png : bytes := [Byte.x89; Byte.x50; Byte.x4e; Byte.x47].

Definition get (url : string) : IO (list string) response := λ w,
  let w' := w ++ ["GET " +:+ url] in
  if String.eqb url (drive +:+ "GOOD") then
    (Ret (Response 200 {["content-type" := "image/png"]} png), w')
  else if String.eqb url (drive +:+ "PAGE") then
    (Ret (Response 200 {["content-type" := "text/html"]} []), w')
  else if String.eqb url (drive +:+ "DOWN") then
    (Raise (Exn OtherException "connection timed out"), w')
  else (Ret (Response 404 ∅ []), w').

Definition render (tpl : unit) (context : gmap string (ctx_value bytes))
  : IO (list string) unit := λ w,
  match context !! "observation" with
  | Some (Scalar (CStr "unrenderable")) =>
      (Raise (Exn OtherException "template error"), w ++ ["render"])
  | _ => (Ret (), w ++ ["render"])
  end.

Definition external : External := {|
  World := list string;
  Tpl := unit;
  Inline := bytes;
  requests_get := get;
  docx_template := λ path w, (Ret (), w);
  inline_image := λ tpl img w, (Ret img, w);
  tpl_render := render;
  tpl_save := λ tpl w, (Ret [Byte.x50; Byte.x4b], w);
  named_temporary_file := λ suffix data w, (Ret ("/tmp/tmp0" +:+ suffix), w);
  convert := λ src dst w, (Ret (), w ++ ["convert " +:+ src]);
  read_binary := λ path w, (Ret [Byte.x25; Byte.x50; Byte.x44; Byte.x46], w);
  os_remove := λ path w, (Ret (), w ++ ["remove " +:+ path]);
  path_exists := λ path w, (Ret true, w);
  float_repr := λ f, match f with S754_nan => "nan" | _ => "0.0" end
|}.

Definition may_1 : Timestamp := {| ts_date := Date 2024 5 1; ts_nanos := 0 |}.
Definition may_3 : Timestamp := {| ts_date := Date 2024 5 3; ts_nanos := 0 |}.

Definition row_a : Row :=
  {| cells := {[ "Site Name" := CStr "4-361-Candid Manesar" ]};
     Date_parsed := Some may_1 |}.
Definition row_b : Row :=
  {| cells := {[ "Site Name" := CStr "2-101-Alpha" ]};
     Date_parsed := Some may_3 |}.
Definition row_c : Row :=
  {| cells := {[ "Site Name" := CStr "4-362-Beta" ]};
     Date_parsed := None |}.
Definition row_bad : Row :=
  {| cells := {[ "Site Name" := CStr "4-363-Gamma";
                 "Observation" := CStr "unrenderable" ]};
     Date_parsed := Some may_1 |}.

End Demo.

(** The text of the "Images" field as [render_docx_for_row] reads it:
    [str(row.get("Images", "") or "").strip()]. *)
Definition images_field `{External} (row : gmap string cell) : string :=
  let v := row_get row "Images" (CStr "") in
  Py.strip (py_str (if cell_truthy v then v else CStr "")).

(** ** Collaborators in a hostile environment

    No network (every request fails) and scratch files that cannot be
    removed; the template and the converter work. *)
Module Offline.

Definition external : External := {|
  World := list string;
  Tpl := unit;
  Inline := bytes;
  requests_get := λ url w,
    (Raise (Exn OtherException "network unreachable"), w ++ ["GET " +:+ url]);
  docx_template := λ path w, (Ret (), w);
  inline_image := λ tpl img w, (Ret img, w);
  tpl_render := λ tpl context w, (Ret (), w ++ ["render"]);
  tpl_save := λ tpl w, (Ret [Byte.x50; Byte.x4b], w);
  named_temporary_file := λ suffix data w, (Ret ("/tmp/tmp0" +:+ suffix), w);
  convert := λ src dst w, (Ret (), w ++ ["convert " +:+ src]);
  read_binary := λ path w, (Ret [Byte.x25; Byte.x50; Byte.x44; Byte.x46], w);
  os_remove := λ path w, (Raise (Exn OSError "file in use"), w);
  path_exists := λ path w, (Ret true, w);
  float_repr := λ f, match f with S754_nan => "nan" | _ => "0.0" end
|}.

Definition row_with_links : Row :=
  {| cells := {[ "Site Name" := CStr "4-361-Candid Manesar";
                 "Images" := CStr "https://drive.google.com/open?id=GOOD" ]};
     Date_parsed := Some Demo.may_1 |}.

End Offline.

(** ** A scripted sheet service

    The sheet [SHEET1] has a date column, the sheet [NODATE] has none,
    any other address fails. *)
Module DemoSheet.

Definition frame : DataFrame :=
  {| columns := ["Date"; "Site Name"];
     records := [ {[ "Date" := CStr "2024-05-01";
                     "Site Name" := CStr "4-361-Candid Manesar" ]};
                  {[ "Date" := CStr "soon";
                     "Site Name" := CStr "2-101-Alpha" ]} ] |}.

Definition frame_without_date : DataFrame :=
  {| columns := ["Site Name"];
     records := [ {[ "Site Name" := CStr "2-101-Alpha" ]} ] |}.

Definition parse (v : cell) : option Timestamp :=
  match v with
  | CStr "2024-05-01" => Some Demo.may_1
  | CStr "2024-05-03" => Some Demo.may_3
  | _ => None
  end.

Definition read (url : string) : IO (list string) DataFrame := λ w,
  let w' := w ++ ["GET " +:+ url] in
  if String.eqb url
       "https://docs.google.com/spreadsheets/d/SHEET1/export?format=csv"
  then (Ret frame, w')
  else if String.eqb url
       "https://docs.google.com/spreadsheets/d/NODATE/export?format=csv"
  then (Ret frame_without_date, w')
  else (Raise (Exn OtherException "HTTP Error 404: Not Found"), w').

Global Instance pandas : Pandas (list string) := {|
  read_csv := read;
  to_datetime := λ col w, (Ret (parse <$> col), w)
|}.

End DemoSheet.

(** * Properties *)

(** ** The documented examples *)

Example extract_sheet_id_url :
  extract_sheet_id "https://docs.google.com/spreadsheets/d/1AbC-d_9/edit#gid=0"
  = "1AbC-d_9".
Proof. reflexivity. Qed.

Example extract_sheet_id_bare : extract_sheet_id "  1AbC-d_9 " = "1AbC-d_9".
Proof. reflexivity. Qed.

Example parse_site_name_doc :
  parse_site_name (CStr "4-361-Candid Manesar") = ("4", "361", "Candid Manesar").
Proof. reflexivity. Qed.

Example parse_site_name_dash_in_name :
  parse_site_name (CStr "4-361-A-B") = ("4", "361", "A-B").
Proof. reflexivity. Qed.

Example extract_drive_open :
  extract_drive_file_id "https://drive.google.com/open?id=FILEID" = "FILEID".
Proof. reflexivity. Qed.

Example extract_drive_view :
  extract_drive_file_id "https://drive.google.com/file/d/FILE_ID/view" = "FILE_ID".
Proof. reflexivity. Qed.

Example extract_drive_no_slash :
  extract_drive_file_id "https://drive.google.com/file/d/FILEID" = "".
Proof. reflexivity. Qed.

Example replace_docx :
  Py.replace ".docx" ".pdf" "/tmp/tmpab.docx" = "/tmp/tmpab.pdf".
Proof. reflexivity. Qed.

(** ** Strings *)

Section StringFacts.

Implicit Types (s t p : string) (c : ascii).

Lemma string_app_nil_r s : s +:+ "" = s.
Proof. induction s; simpl; congruence. Qed.

Lemma string_app_assoc s t p : (s +:+ t) +:+ p = s +:+ t +:+ p.
Proof. induction s; simpl; congruence. Qed.

Lemma id_char_not_space c : Re.id_char c = true → Py.isspace c = false.
Proof. destruct c as [[] [] [] [] [] [] [] []]; vm_compute; congruence. Qed.

Lemma id_char_not_slash c : Re.id_char c = true → c ≠ "/"%char.
Proof. intros H ->. vm_compute in H. discriminate. Qed.

Lemma lstrip_id s : Py.all (λ c, negb (Py.isspace c)) s = true → Py.lstrip s = s.
Proof.
  destruct s as [|c s]; simpl; [done|].
  intros [Hc _]%andb_prop. by destruct (Py.isspace c).
Qed.

Lemma rstrip_id s : Py.all (λ c, negb (Py.isspace c)) s = true → Py.rstrip s = s.
Proof.
  induction s as [|c s IH]; simpl; [done|].
  intros [Hc Hs]%andb_prop. rewrite (IH Hs).
  destruct s; [|done]. by destruct (Py.isspace c).
Qed.

Lemma all_impl (P Q : ascii → bool) s :
  (∀ c, P c = true → Q c = true) → Py.all P s = true → Py.all Q s = true.
Proof.
  intros HPQ. induction s as [|c s IH]; simpl; [done|].
  intros [Hc Hs]%andb_prop. rewrite (HPQ _ Hc), (IH Hs). done.
Qed.

Lemma strip_id s : Py.all (λ c, negb (Py.isspace c)) s = true → Py.strip s = s.
Proof. intros H. unfold Py.strip. rewrite (lstrip_id _ H). by apply rstrip_id. Qed.

Lemma lstrip_clean_head s : Py.clean_head (Py.lstrip s).
Proof.
  induction s as [|c s IH]; simpl; [done|].
  destruct (Py.isspace c) eqn:Hc; [done|]. simpl. done.
Qed.

Lemma lstrip_of_clean_head s : Py.clean_head s → Py.lstrip s = s.
Proof. destruct s as [|c s]; simpl; [done|]. by intros ->. Qed.

Lemma rstrip_clean_head s : Py.clean_head s → Py.clean_head (Py.rstrip s).
Proof.
  destruct s as [|c s]; simpl; [done|]. intros Hc. rewrite Hc.
  by destruct (Py.rstrip s).
Qed.

Lemma rstrip_idemp s : Py.rstrip (Py.rstrip s) = Py.rstrip s.
Proof.
  induction s as [|c s IH]; simpl; [done|].
  destruct (Py.rstrip s) as [|c' r] eqn:Hr.
  - destruct (Py.isspace c) eqn:Hc; simpl; [done|]. by rewrite Hc.
  - change (Py.rstrip (String c (String c' r))) with
      (match Py.rstrip (String c' r) with
       | "" => if Py.isspace c then "" else String c ""
       | r' => String c r'
       end).
    by rewrite IH.
Qed.

Lemma strip_idemp s : Py.strip (Py.strip s) = Py.strip s.
Proof.
  unfold Py.strip.
  rewrite (lstrip_of_clean_head (Py.rstrip (Py.lstrip s))).
  - apply rstrip_idemp.
  - apply rstrip_clean_head, lstrip_clean_head.
Qed.

(** [rstrip] and [lstrip] cut a suffix and a prefix off. *)
Lemma rstrip_prefix s : ∃ t, s = Py.rstrip s +:+ t.
Proof.
  induction s as [|c s [t Ht]]; simpl; [by exists ""|].
  destruct (Py.rstrip s) as [|c' r] eqn:Hr.
  - destruct (Py.isspace c).
    + by exists (String c s).
    + exists t. simpl in *. congruence.
  - exists t. simpl in *. congruence.
Qed.

Lemma lstrip_suffix s : ∃ t, s = t +:+ Py.lstrip s.
Proof.
  induction s as [|c s [t Ht]]; simpl; [by exists ""|].
  destruct (Py.isspace c).
  - exists (String c t). simpl. congruence.
  - by exists "".
Qed.

End StringFacts.

(** ** Regular-expression search *)

Section SearchFacts.

Variables (pre : string) (cls : ascii → bool) (post : string).
Implicit Types (s t g : string).

Lemma startswith_app p s t :
  Py.startswith p s = true → Py.startswith p (s +:+ t) = true.
Proof.
  unfold Py.startswith. revert s. induction p as [|c p IH]; intros s.
  - intros _. by destruct (s +:+ t).
  - destruct s as [|c' s]; simpl; [done|].
    destruct (ascii_dec c c'); [apply IH|done].
Qed.

Lemma drop_app p s t :
  Py.startswith p s = true →
  Re.drop (String.length p) (s +:+ t) = Re.drop (String.length p) s +:+ t.
Proof.
  unfold Py.startswith. revert s. induction p as [|c p IH]; intros s.
  - by destruct s.
  - destruct s as [|c' s]; simpl; [done|].
    destruct (ascii_dec c c'); [apply IH|done].
Qed.

(** The captured group is a non-empty run of class characters. *)
Lemma group_plus_class s g :
  Re.group_plus cls post s = Some g → Py.all cls g = true ∧ g ≠ "".
Proof.
  revert g. induction s as [|c s IH]; simpl; [done|]. intros g.
  destruct (cls c) eqn:Hc; [|done].
  destruct (Re.group_plus cls post s) as [g'|].
  - intros [= <-]. simpl. rewrite Hc. split; [|done]. by apply IH.
  - destruct (Py.startswith post s); [|done].
    intros [= <-]. simpl. by rewrite Hc.
Qed.

Lemma search_class s g :
  Re.search pre cls post s = Some g → Py.all cls g = true ∧ g ≠ "".
Proof.
  induction s as [|c s IH]; simpl; unfold Re.match_at;
    destruct (Py.startswith pre _); try done;
    destruct (Re.group_plus cls post _) eqn:Hg; try done;
    intros [= <-]; eauto using group_plus_class.
Qed.

Lemma search_unfold s :
  Re.search pre cls post s =
  match Re.match_at pre cls post s with
  | Some g => Some g
  | None => match s with
            | "" => None
            | String _ s' => Re.search pre cls post s'
            end
  end.
Proof. by destruct s. Qed.

(** No match in a string means no match in any of its suffixes. *)
Lemma search_none_suffix t s :
  Re.search pre cls post (t +:+ s) = None → Re.search pre cls post s = None.
Proof.
  induction t as [|c t IH]; simpl; [done|].
  destruct (Re.match_at pre cls post (String c (t +:+ s))); [done|]. apply IH.
Qed.

End SearchFacts.

Section SearchOpenEnded.

(** Patterns that end with the group: [lit(class+)]. *)
Variables (pre : string) (cls : ascii → bool).
Implicit Types (s t g : string).

Lemma group_plus_open_app s t :
  Re.group_plus cls "" (s +:+ t) = None → Re.group_plus cls "" s = None.
Proof.
  destruct s as [|c s]; simpl; [done|].
  destruct (cls c); [|done].
  destruct (Re.group_plus cls "" (s +:+ t)); [done|].
  unfold Py.startswith. by destruct (s +:+ t).
Qed.

Lemma match_at_open_app s t :
  Re.match_at pre cls "" (s +:+ t) = None → Re.match_at pre cls "" s = None.
Proof.
  unfold Re.match_at.
  destruct (Py.startswith pre s) eqn:Hp; [|done].
  rewrite (startswith_app _ _ t Hp), (drop_app _ _ t Hp).
  apply group_plus_open_app.
Qed.

(** No match in a string means no match in any of its prefixes. *)
Lemma search_none_prefix s t :
  Re.search pre cls "" (s +:+ t) = None → Re.search pre cls "" s = None.
Proof.
  induction s as [|c s IH].
  - intros _. simpl. unfold Re.match_at.
    destruct pre; simpl; [|done]. done.
  - rewrite (search_unfold _ _ _ (String c s +:+ t)), (search_unfold _ _ _ (String c s)).
    destruct (Re.match_at pre cls "" (String c s +:+ t)) eqn:Hm; [done|].
    rewrite (match_at_open_app _ _ Hm). simpl. apply IH.
Qed.

Lemma search_none_strip s :
  Re.search pre cls "" s = None → Re.search pre cls "" (Py.strip s) = None.
Proof.
  intros H. unfold Py.strip.
  destruct (lstrip_suffix s) as [t Ht].
  destruct (rstrip_prefix (Py.lstrip s)) as [t' Ht'].
  rewrite Ht in H. apply search_none_suffix in H.
  rewrite Ht' in H. by apply search_none_prefix in H.
Qed.

End SearchOpenEnded.

(** A literal that starts with a character absent from the text cannot match. *)
Lemma search_absent_head c pre cls post s :
  Py.all (λ x, negb (Ascii.eqb x c)) s = true →
  Re.search (String c pre) cls post s = None.
Proof.
  induction s as [|c' s IH]; simpl; unfold Re.match_at, Py.startswith; simpl; [done|].
  intros [Hc Hs]%andb_prop.
  destruct (ascii_dec c c') as [->|_].
  - by rewrite Ascii.eqb_refl in Hc.
  - by apply IH.
Qed.

(** ** Spreadsheet identifier extraction *)

Lemma sheet_id_is_fixed g :
  Py.all Re.id_char g = true → extract_sheet_id g = g.
Proof.
  intros Hg. unfold extract_sheet_id.
  rewrite search_absent_head.
  - apply strip_id. revert Hg. apply all_impl.
    intros c Hc. by rewrite (id_char_not_space c Hc).
  - revert Hg. apply all_impl. intros c Hc.
    destruct (Ascii.eqb_spec c "/"); [|done].
    by apply id_char_not_slash in Hc.
Qed.

(** C8. Spreadsheet identifier extraction is idempotent: extracting from
    an extracted identifier gives it back; in particular, an input with
    no [/spreadsheets/d/<id>] segment is returned trimmed, and a second
    application leaves that trimmed text unchanged. *)
Theorem extract_sheet_id_idempotent (sheet_input : string) :
  extract_sheet_id (extract_sheet_id sheet_input) = extract_sheet_id sheet_input
  ∧ (Re.search "/spreadsheets/d/" Re.id_char "" sheet_input = None →
     extract_sheet_id sheet_input = Py.strip sheet_input
     ∧ extract_sheet_id (Py.strip sheet_input) = Py.strip sheet_input).
Proof.
  assert (Hbare : Re.search "/spreadsheets/d/" Re.id_char "" sheet_input = None →
     extract_sheet_id sheet_input = Py.strip sheet_input
     ∧ extract_sheet_id (Py.strip sheet_input) = Py.strip sheet_input).
  { intros Hnone. unfold extract_sheet_id.
    rewrite Hnone, (search_none_strip _ _ _ Hnone). by rewrite strip_idemp. }
  split; [|done].
  destruct (Re.search "/spreadsheets/d/" Re.id_char "" sheet_input) as [g|] eqn:Hs.
  - unfold extract_sheet_id at 2 3. rewrite Hs.
    apply sheet_id_is_fixed. by apply search_class in Hs as [? _].
  - destruct (Hbare eq_refl) as [-> ->]. done.
Qed.

Lemma extract_sheet_id_idempotent_witness :
  extract_sheet_id (extract_sheet_id "  1AbC-d_9 ") = extract_sheet_id "  1AbC-d_9 "
  ∧ extract_sheet_id "  1AbC-d_9 " = "1AbC-d_9"
  ∧ extract_sheet_id "1AbC-d_9" = "1AbC-d_9".
Proof.
  destruct (extract_sheet_id_idempotent "  1AbC-d_9 ") as [H1 H2].
  split; [exact H1|]. apply H2. reflexivity.
Defined.

(** ** Splitting at a separator *)

Section SplitFacts.

Variable sep : ascii.
Implicit Types (s a r : string) (m : option nat).

Lemma split_go_no_sep m s : Py.count sep s = 0 → Py.split_go sep m s = (s, []).
Proof.
  induction s as [|c s IH]; simpl; [done|].
  destruct (Ascii.eqb c sep); [done|]. simpl. intros H. by rewrite IH.
Qed.

Lemma split_go_zero s : Py.split_go sep (Some 0) s = (s, []).
Proof.
  induction s as [|c s IH]; simpl; [done|].
  destruct (Ascii.eqb c sep); [done|]. by rewrite IH.
Qed.

(** A string with a separator, cut at the first one. *)
Lemma first_sep s :
  0 < Py.count sep s →
  ∃ a r, s = a +:+ String sep r ∧ Py.count sep a = 0
         ∧ Py.count sep s = S (Py.count sep r).
Proof.
  induction s as [|c s IH]; simpl; [lia|].
  destruct (Ascii.eqb_spec c sep) as [->|Hne].
  - intros _. exists "", s. simpl. done.
  - simpl. intros (a & r & -> & Ha & Hr)%IH.
    exists (String c a), r. simpl.
    destruct (Ascii.eqb_spec c sep); [done|]. done.
Qed.

Lemma split_go_first n a r :
  Py.count sep a = 0 →
  Py.split_go sep (Some (S n)) (a +:+ String sep r)
  = (a, Py.split sep (Some n) r).
Proof.
  induction a as [|c a IH]; simpl.
  - intros _. by rewrite Ascii.eqb_refl.
  - destruct (Ascii.eqb c sep); [done|]. simpl. intros H. by rewrite IH.
Qed.

Lemma split_no_sep m s : Py.count sep s = 0 → Py.split sep m s = [s].
Proof. intros H. unfold Py.split. by rewrite split_go_no_sep. Qed.

Lemma split_first n a r :
  Py.count sep a = 0 →
  Py.split sep (Some (S n)) (a +:+ String sep r) = a :: Py.split sep (Some n) r.
Proof. intros H. unfold Py.split at 1. by rewrite split_go_first. Qed.

Lemma split_zero s : Py.split sep (Some 0) s = [s].
Proof. unfold Py.split. by rewrite split_go_zero. Qed.

(** Fewer than two separators: at most two parts. *)
Lemma split2_short s :
  Py.count sep s < 2 → length (Py.split sep (Some 2) s) < 3.
Proof.
  intros H. destruct (Py.count sep s) as [|n] eqn:Hc.
  - rewrite split_no_sep by done. simpl. lia.
  - destruct (first_sep s) as (a & r & -> & Ha & Hr); [lia|].
    rewrite split_first by done.
    rewrite split_no_sep by lia. simpl. lia.
Qed.

(** At least two separators: three parts, cut at the first two. *)
Lemma split2_long s :
  2 ≤ Py.count sep s →
  ∃ a b c, s = a +:+ String sep (b +:+ String sep c)
           ∧ Py.count sep a = 0 ∧ Py.count sep b = 0
           ∧ Py.split sep (Some 2) s = [a; b; c].
Proof.
  intros H.
  destruct (first_sep s) as (a & r & -> & Ha & Hr); [lia|].
  destruct (first_sep r) as (b & c & -> & Hb & Hc); [lia|].
  exists a, b, c. repeat split; try done.
  rewrite split_first by done. rewrite split_first by done.
  by rewrite split_zero.
Qed.

End SplitFacts.

(** ** Site name parser *)

(** C3. The site-label decoder is total: a non-string gives three empty
    strings; a string with fewer than two separators gives two empty
    strings and the trimmed input; any other string is split at its
    first two separators and the three segments are returned trimmed,
    in order. *)
Theorem parse_site_name_cases :
  (∀ raw, (∀ s, raw ≠ CStr s) → parse_site_name raw = ("", "", ""))
  ∧ (∀ s, Py.count "-" s < 2 →
       parse_site_name (CStr s) = ("", "", Py.strip s))
  ∧ (∀ s, 2 ≤ Py.count "-" s →
       ∃ a b c, Py.split "-" (Some 2) s = [a; b; c]
                ∧ s = a +:+ "-" +:+ b +:+ "-" +:+ c
                ∧ Py.count "-" a = 0 ∧ Py.count "-" b = 0
                ∧ parse_site_name (CStr s) = (Py.strip a, Py.strip b, Py.strip c)).
Proof.
  split; [|split].
  - intros raw H. destruct raw; try done. by destruct (H s).
  - intros s Hc. unfold parse_site_name.
    pose proof (split2_short "-" s Hc) as Hlen.
    destruct (Nat.ltb_spec (length (Py.split "-" (Some 2) s)) 3); [done|lia].
  - intros s Hc.
    destruct (split2_long "-" s Hc) as (a & b & c & Hs & Ha & Hb & Hsplit).
    exists a, b, c. repeat split; try done.
    unfold parse_site_name. by rewrite Hsplit.
Qed.

Lemma parse_site_name_cases_witness :
  parse_site_name (CInt 42) = ("", "", "")
  ∧ parse_site_name (CStr " Candid Manesar ") = ("", "", "Candid Manesar")
  ∧ ∃ a b c, Py.split "-" (Some 2) "4-361-Candid Manesar" = [a; b; c]
             ∧ "4-361-Candid Manesar" = a +:+ "-" +:+ b +:+ "-" +:+ c
             ∧ Py.count "-" a = 0 ∧ Py.count "-" b = 0
             ∧ parse_site_name (CStr "4-361-Candid Manesar")
               = (Py.strip a, Py.strip b, Py.strip c).
Proof.
  destruct parse_site_name_cases as (Hother & Hshort & Hlong).
  split; [|split].
  - apply Hother. intros s. discriminate.
  - apply (Hshort " Candid Manesar "). vm_compute. lia.
  - apply (Hlong "4-361-Candid Manesar"). vm_compute. lia.
Defined.

Section StripAroundSeparator.

(** Stripping a text does not cross a character that is not whitespace. *)
Variable x : ascii.
Hypothesis x_not_space : Py.isspace x = false.
Implicit Types (s t : string).

Lemma lstrip_before s t :
  Py.lstrip (s +:+ String x t) = Py.lstrip s +:+ String x t.
Proof.
  induction s as [|c s IH]; simpl; [by rewrite x_not_space|].
  by destruct (Py.isspace c).
Qed.

Lemma rstrip_after s t :
  Py.rstrip (s +:+ String x t) = s +:+ String x (Py.rstrip t).
Proof.
  induction s as [|c s IH]; simpl.
  - rewrite x_not_space. by destruct (Py.rstrip t).
  - rewrite IH. by destruct s.
Qed.

End StripAroundSeparator.

Lemma rstrip_fixed_suffix (t s : string) :
  Py.rstrip (t +:+ s) = t +:+ s → Py.rstrip s = s.
Proof.
  induction t as [|c t IH]; simpl; [done|].
  destruct (Py.rstrip (t +:+ s)) as [|c' r] eqn:Hr.
  - destruct (Py.isspace c); [done|]. intros [= H].
    destruct t; simpl in H; [by subst|done].
  - intros [= H]. by apply IH.
Qed.

Lemma strip_of_rstrip_fixed (a : string) :
  Py.rstrip a = a → Py.strip a = Py.lstrip a.
Proof.
  intros H. unfold Py.strip.
  destruct (lstrip_suffix a) as [t Ht].
  apply (rstrip_fixed_suffix t). by rewrite <- Ht.
Qed.

(** C4, as the code has it.  A label with at least two separators is cut
    at its first two separators into [a], [b] and [c], which rejoined
    give the label back, and the decoder returns each of them trimmed
    (a segment may be empty).  When no whitespace touches the two
    separators, the decoded segments rejoined are the trimmed label. *)
Theorem parse_site_name_rejoin (s : string) :
  2 ≤ Py.count "-" s →
  ∃ a b c,
    s = Py.join "-" [a; b; c]
    ∧ Py.count "-" a = 0 ∧ Py.count "-" b = 0
    ∧ parse_site_name (CStr s) = (Py.strip a, Py.strip b, Py.strip c)
    ∧ (Py.rstrip a = a → Py.strip b = b → Py.lstrip c = c →
       Py.join "-" [Py.strip a; Py.strip b; Py.strip c] = Py.strip s).
Proof.
  intros Hc.
  destruct (split2_long "-" s Hc) as (a & b & c & Hs & Ha & Hb & Hsplit).
  exists a, b, c. repeat split; try done.
  - unfold parse_site_name. by rewrite Hsplit.
  - intros Hra Hsb Hlc. subst s.
    rewrite (strip_of_rstrip_fixed a Hra), Hsb.
    unfold Py.strip at 1. rewrite Hlc.
    unfold Py.strip, Py.join.
    rewrite (lstrip_before "-") by done.
    change (Py.lstrip a +:+ String "-" (b +:+ String "-" c))
      with (Py.lstrip a +:+ (String "-" b +:+ String "-" c)).
    rewrite <- (string_app_assoc (Py.lstrip a) (String "-" b) (String "-" c)).
    rewrite (rstrip_after "-") by done.
    by rewrite string_app_assoc.
Qed.

Lemma parse_site_name_rejoin_witness :
  ∃ a b c,
    "4-361-Candid Manesar" = Py.join "-" [a; b; c]
    ∧ Py.count "-" a = 0 ∧ Py.count "-" b = 0
    ∧ parse_site_name (CStr "4-361-Candid Manesar")
      = (Py.strip a, Py.strip b, Py.strip c)
    ∧ (Py.rstrip a = a → Py.strip b = b → Py.lstrip c = c →
       Py.join "-" [Py.strip a; Py.strip b; Py.strip c]
       = Py.strip "4-361-Candid Manesar").
Proof. apply (parse_site_name_rejoin "4-361-Candid Manesar"). vm_compute. lia. Defined.

(** C4 as stated fails: a label with two separators and nothing between
    them decodes to an empty unit code. *)
Lemma parse_site_name_empty_segment :
  2 ≤ Py.count "-" "4--Candid"
  ∧ parse_site_name (CStr "4--Candid") = ("4", "", "Candid")
  ∧ ¬ (∃ zone unit_code site_name,
         parse_site_name (CStr "4--Candid") = (zone, unit_code, site_name)
         ∧ zone ≠ "" ∧ unit_code ≠ "" ∧ site_name ≠ "").
Proof.
  split; [vm_compute; lia|]. split; [reflexivity|].
  intros (z & u & n & H & _ & Hu & _). vm_compute in H. congruence.
Qed.

(** Whitespace next to a separator is trimmed as well, so the decoded
    segments rejoined need not be the trimmed label. *)
Example parse_site_name_inner_whitespace :
  parse_site_name (CStr "4 - 361 - X") = ("4", "361", "X")
  ∧ Py.join "-" ["4"; "361"; "X"] ≠ Py.strip "4 - 361 - X".
Proof. split; [reflexivity|]. vm_compute. discriminate. Qed.

(** ** Render context *)

Section CleanLoop.

Implicit Types (l : list (string * cell)) (m : gmap string cell) (k : string).

Lemma clean_step_lookup_ne m k k' v' :
  k ≠ k' → clean_step m (k', v') !! k = m !! k.
Proof.
  intros Hne. unfold clean_step.
  destruct (isna v'); [by rewrite lookup_insert_ne|].
  destruct v'; try done. by rewrite lookup_insert_ne.
Qed.

Lemma clean_step_lookup_eq m k v :
  m !! k = Some v → clean_step m (k, v) !! k = Some (normalize v).
Proof.
  intros Hk. unfold clean_step, normalize.
  destruct (isna v) eqn:Hna; [by rewrite lookup_insert_eq|].
  by destruct v.
Qed.

Lemma clean_loop_other l m k :
  k ∉ l.*1 → foldl clean_step m l !! k = m !! k.
Proof.
  revert m. induction l as [|[k' v'] l IH]; intros m; [done|].
  rewrite fmap_cons. cbn [foldl fst].
  intros [Hne Hl]%not_elem_of_cons.
  rewrite IH by done. by apply clean_step_lookup_ne.
Qed.

Lemma clean_loop_item l m k v :
  NoDup l.*1 → (k, v) ∈ l → m !! k = Some v →
  foldl clean_step m l !! k = Some (normalize v).
Proof.
  revert m. induction l as [|[k' v'] l IH]; intros m.
  - intros _ []%elem_of_nil.
  - rewrite fmap_cons. cbn [foldl fst].
    intros [Hk' Hnd]%NoDup_cons [[= -> ->]|Hin]%elem_of_cons Hm.
    + rewrite clean_loop_other by done. by apply clean_step_lookup_eq.
    + assert (k ≠ k').
      { intros ->. apply Hk'. apply list_elem_of_fmap. by exists (k', v). }
      apply IH; [done..|]. by rewrite clean_step_lookup_ne.
Qed.

(** The cleaning loop normalizes every value and keeps the keys. *)
Lemma clean_context_lookup m k :
  clean_context m !! k = normalize <$> m !! k.
Proof.
  unfold clean_context. destruct (m !! k) as [v|] eqn:Hk; simpl.
  - apply clean_loop_item; [apply NoDup_fst_map_to_list| |done].
    by apply elem_of_map_to_list.
  - rewrite clean_loop_other; [done|].
    intros ([k' v'] & -> & Hin%elem_of_map_to_list)%list_elem_of_fmap.
    simpl in Hk. congruence.
Qed.

End CleanLoop.

Lemma normalize_not_null v : isna (normalize v) = false ∧ normalize v ≠ CNone.
Proof. unfold normalize. destruct v as [| |[]| |]; simpl; done. Qed.

Lemma row_context_lookup (row : gmap string cell) (k : string) :
  ∃ zone unit_code site_name,
    parse_site_name (row_get row "Site Name" (CStr "")) = (zone, unit_code, site_name)
    ∧ row_context row !! k
      = normalize <$> build_context zone unit_code site_name row !! k.
Proof.
  unfold row_context.
  destruct (parse_site_name _) as [[zone unit_code] site_name].
  exists zone, unit_code, site_name. split; [done|]. apply clean_context_lookup.
Qed.

Lemma build_context_keys zone unit_code site_name row k :
  k ∈ context_keys → is_Some (build_context zone unit_code site_name row !! k).
Proof.
  unfold context_keys, build_context. intros Hk.
  repeat (apply elem_of_cons in Hk as [->|Hk]; [by simplify_map_eq|]).
  by apply elem_of_nil in Hk.
Qed.

Lemma build_context_columns zone unit_code site_name row k col :
  (k, col) ∈ context_columns →
  build_context zone unit_code site_name row !! k = Some (row_get row col (CStr "")).
Proof.
  unfold context_columns, build_context. intros Hk.
  repeat (apply elem_of_cons in Hk as [[= -> ->]|Hk]; [by simplify_map_eq|]).
  by apply elem_of_nil in Hk.
Qed.

(** C2. In the context handed to the template, every declared key is
    present with a scalar that is neither NaN nor None, whatever the
    row; a row-derived key holds the value of its column, the empty
    string when the column is absent or holds a missing-value marker;
    and no scalar of the context is a missing-value marker. *)
Theorem render_context_no_null `{External} (row : gmap string cell)
    (images_inline : list Inline) :
  (∀ k, k ∈ context_keys →
     ∃ v, final_context row images_inline !! k = Some (Scalar v)
          ∧ isna v = false ∧ v ≠ CNone)
  ∧ (∀ k col, (k, col) ∈ context_columns →
       final_context row images_inline !! k
       = Some (Scalar (match row !! col with
                       | None => CStr ""
                       | Some v => if isna v then CStr "" else v
                       end)))
  ∧ (∀ k v, final_context row images_inline !! k = Some (Scalar v) →
       isna v = false ∧ v ≠ CNone).
Proof.
  split; [|split].
  - intros k Hk.
    destruct (row_context_lookup row k) as (z & u & n & _ & Hctx).
    destruct (build_context_keys z u n row k Hk) as [v Hv].
    exists (normalize v). split; [|apply normalize_not_null].
    unfold final_context. rewrite lookup_insert_ne.
    + by rewrite lookup_fmap, Hctx, Hv.
    + intros <-. unfold context_keys in Hk.
      repeat (apply elem_of_cons in Hk as [?|Hk]; [done|]).
      by apply elem_of_nil in Hk.
  - intros k col Hk.
    destruct (row_context_lookup row k) as (z & u & n & _ & Hctx).
    unfold final_context. rewrite lookup_insert_ne.
    + rewrite lookup_fmap, Hctx, (build_context_columns _ _ _ _ _ _ Hk).
      unfold row_get, normalize. by destruct (row !! col).
    + intros <-. unfold context_columns in Hk.
      repeat (apply elem_of_cons in Hk as [?|Hk]; [done|]).
      by apply elem_of_nil in Hk.
  - intros k v. unfold final_context.
    destruct (decide ("images" = k)) as [<-|Hne].
    + by rewrite lookup_insert_eq.
    + rewrite lookup_insert_ne, lookup_fmap by done.
      destruct (row_context_lookup row k) as (z & u & n & _ & ->).
      destruct (build_context z u n row !! k) as [v0|]; simpl; [|done].
      intros [= <-]. apply normalize_not_null.
Qed.

Lemma render_context_no_null_witness :
  (∃ v, @final_context Demo.external ∅ [] !! "date" = Some (Scalar v)
        ∧ isna v = false ∧ v ≠ CNone)
  ∧ @final_context Demo.external {[ "Observation" := CFloat S754_nan ]} []
      !! "observation" = Some (Scalar (CStr ""))
  ∧ isna (CStr "") = false ∧ CStr "" ≠ CNone.
Proof.
  split; [|split].
  - apply (proj1 (@render_context_no_null Demo.external ∅ [])).
    unfold context_keys. repeat constructor.
  - pose proof (proj1 (proj2 (@render_context_no_null Demo.external
                                {[ "Observation" := CFloat S754_nan ]} []))
                  "observation" "Observation") as Hw.
    rewrite lookup_singleton_eq in Hw. apply Hw.
    unfold context_columns. repeat constructor.
  - apply (proj2 (proj2 (@render_context_no_null Demo.external ∅ []))
             "time" (CStr "")).
    vm_compute. reflexivity.
Defined.

(** ** Date filter *)

Section DateFilter.

Variable selected_date : date.
Implicit Types (df : list Row) (r : Row).

Lemma date_class_exclusive r :
  (date_matches selected_date r ∧ ¬ date_differs selected_date r
     ∧ ¬ date_unparseable r)
  ∨ (¬ date_matches selected_date r ∧ date_differs selected_date r
     ∧ ¬ date_unparseable r)
  ∨ (¬ date_matches selected_date r ∧ ¬ date_differs selected_date r
     ∧ date_unparseable r).
Proof.
  unfold date_matches, date_differs, date_unparseable, dt_date.
  destruct (Date_parsed r) as [ts|]; simpl.
  - destruct (decide (ts_date ts = selected_date)) as [->|Hne].
    + left. naive_solver.
    + right. left. naive_solver.
  - right. right. naive_solver.
Qed.

(** Indexing by the mask keeps exactly the matching rows. *)
Lemma filter_by_date_filter df :
  filter_by_date df selected_date = filter (date_matches selected_date) df.
Proof.
  unfold filter_by_date, date_mask.
  induction df as [|r df IH]; [done|].
  rewrite fmap_cons, filter_cons. cbn [boolean_index]. rewrite IH.
  destruct (decide (date_matches selected_date r)) as [Hm|Hm];
    unfold date_matches in Hm.
  - rewrite Hm. by rewrite bool_decide_eq_true_2.
  - destruct (dt_date r) as [d|]; [|done].
    rewrite bool_decide_eq_false_2; [done|]. congruence.
Qed.

Lemma three_way_split df :
  df ≡ₚ filter (date_matches selected_date) df
        ++ filter (date_differs selected_date) df
        ++ filter date_unparseable df.
Proof.
  induction df as [|r df IH]; [done|].
  rewrite !filter_cons.
  destruct (date_class_exclusive r) as [(Hm & Hd & Hu)|[(Hm & Hd & Hu)|(Hm & Hd & Hu)]].
  - rewrite decide_True, decide_False, decide_False by done.
    simpl. by rewrite <- IH.
  - rewrite decide_False, decide_True, decide_False by done.
    simpl. rewrite <- Permutation_middle. by rewrite <- IH.
  - rewrite decide_False, decide_False, decide_True by done.
    rewrite (assoc_L (++)), <- Permutation_middle, <- (assoc_L (++)).
    by rewrite <- IH.
Qed.

End DateFilter.

(** C5. Date filtering partitions the table.  Every row is of exactly
    one kind (its parsed date is the selected date, is another date, or
    is missing); the batch is the rows of the first kind, in table
    order; the three kinds together are the table; and a row without a
    parsed date is in no batch, whatever date is selected. *)
Theorem date_filter_partition (df : list Row) (selected_date : date) :
  (∀ r,
     (date_matches selected_date r ∧ ¬ date_differs selected_date r
        ∧ ¬ date_unparseable r)
     ∨ (¬ date_matches selected_date r ∧ date_differs selected_date r
        ∧ ¬ date_unparseable r)
     ∨ (¬ date_matches selected_date r ∧ ¬ date_differs selected_date r
        ∧ date_unparseable r))
  ∧ filter_by_date df selected_date = filter (date_matches selected_date) df
  ∧ filter_by_date df selected_date `sublist_of` df
  ∧ (∀ r, r ∈ filter_by_date df selected_date
          ↔ r ∈ df ∧ date_matches selected_date r)
  ∧ df ≡ₚ filter_by_date df selected_date
          ++ filter (date_differs selected_date) df
          ++ filter date_unparseable df
  ∧ (∀ r d, date_unparseable r → r ∉ filter_by_date df d).
Proof.
  split; [apply date_class_exclusive|].
  split; [apply filter_by_date_filter|].
  split; [rewrite filter_by_date_filter; apply sublist_filter|].
  split.
  { intros r. rewrite filter_by_date_filter, list_elem_of_filter. tauto. }
  split; [rewrite filter_by_date_filter; apply three_way_split|].
  intros r d Hr. rewrite filter_by_date_filter, list_elem_of_filter.
  unfold date_matches, date_unparseable, dt_date in *. rewrite Hr.
  simpl. by intros [? _].
Qed.

Lemma date_filter_partition_witness :
  filter_by_date [Demo.row_a; Demo.row_b; Demo.row_c; Demo.row_bad] (Date 2024 5 1)
  = [Demo.row_a; Demo.row_bad]
  ∧ ∀ d, Demo.row_c ∉ filter_by_date
                        [Demo.row_a; Demo.row_b; Demo.row_c; Demo.row_bad] d.
Proof.
  split; [reflexivity|]. intros d.
  apply (date_filter_partition [Demo.row_a; Demo.row_b; Demo.row_c; Demo.row_bad]
           (Date 2024 5 1)).
  reflexivity.
Defined.

(** ** Archive entry names *)

Lemma replace_space (s : string) : Py.replace " " "_" s = spaces_to_underscores s.
Proof.
  unfold Py.replace. induction s as [|c s IH]; [done|].
  cbn [Py.replace_go spaces_to_underscores]. unfold Py.startswith.
  change (String.prefix " " (String c s))
    with (if ascii_dec " " c then String.prefix "" s else false).
  destruct (ascii_dec " " c) as [<-|Hne].
  - replace (String.prefix "" s) with true by (by destruct s).
    cbn. by rewrite IH.
  - rewrite IH. destruct (Ascii.eqb_spec c " "); [by subst|done].
Qed.

Example isoformat_may_1 : isoformat (Date 2024 5 1) = "2024-05-01".
Proof. reflexivity. Qed.

Example isoformat_early_year : isoformat (Date 987 12 31) = "0987-12-31".
Proof. reflexivity. Qed.

(** C6, as the code has it.  For a row whose decoded site name is not
    empty, the entry name is the selected date in ISO form, an
    underscore, the decoded site name with every space turned into an
    underscore, and the suffix [.pdf]. *)
Theorem entry_filename_site (selected_date : date) (row : gmap string cell)
    (zone unit_code site_name : string) :
  parse_site_name (row_get row "Site Name" (CStr "")) = (zone, unit_code, site_name) →
  site_name ≠ "" →
  entry_filename selected_date row
  = isoformat selected_date +:+ "_" +:+ spaces_to_underscores site_name +:+ ".pdf".
Proof.
  unfold entry_filename, row_get. intros Hparse Hne.
  destruct (row !! "Site Name") as [v|]; simpl in *.
  - rewrite Hparse, replace_space. by destruct site_name.
  - vm_compute in Hparse. congruence.
Qed.

Lemma entry_filename_site_witness :
  entry_filename (Date 2024 5 1) {[ "Site Name" := CStr "4-361-Candid Manesar" ]}
  = "2024-05-01_Candid_Manesar.pdf".
Proof.
  apply (entry_filename_site (Date 2024 5 1)
           {[ "Site Name" := CStr "4-361-Candid Manesar" ]}
           "4" "361" "Candid Manesar").
  - reflexivity.
  - discriminate.
Defined.

(** C6 as stated fails on a row whose site cell is empty (NaN): its
    decoded site name is empty, and the entry name is not the date
    joined to that empty name. *)
Lemma entry_filename_empty_site_name :
  parse_site_name (row_get {[ "Site Name" := CFloat S754_nan ]} "Site Name" (CStr ""))
  = ("", "", "")
  ∧ entry_filename (Date 2024 5 1) {[ "Site Name" := CFloat S754_nan ]}
    = "2024-05-01_Site.pdf"
  ∧ entry_filename (Date 2024 5 1) {[ "Site Name" := CFloat S754_nan ]}
    ≠ isoformat (Date 2024 5 1) +:+ "_" +:+ spaces_to_underscores "" +:+ ".pdf".
Proof. split; [reflexivity|]. split; [reflexivity|]. vm_compute. discriminate. Qed.

(** C10. When the decoded site name of a row is empty, the entry name
    is the selected date followed by [_Site.pdf]. *)
Theorem entry_filename_placeholder (selected_date : date)
    (row : gmap string cell) (zone unit_code : string) :
  parse_site_name (row_get row "Site Name" (CStr "")) = (zone, unit_code, "") →
  entry_filename selected_date row = isoformat selected_date +:+ "_Site.pdf".
Proof.
  unfold entry_filename, row_get. intros Hparse.
  destruct (row !! "Site Name") as [v|]; simpl in *.
  - by rewrite Hparse.
  - reflexivity.
Qed.

Lemma entry_filename_placeholder_witness :
  entry_filename (Date 2024 5 1) {[ "Site Name" := CStr "   " ]}
  = "2024-05-01_Site.pdf"
  ∧ entry_filename (Date 2024 5 1) {[ "Site Name" := CInt 7 ]}
    = "2024-05-01_Site.pdf"
  ∧ entry_filename (Date 2024 5 1) ∅ = "2024-05-01_Site.pdf".
Proof.
  split; [|split].
  - apply (entry_filename_placeholder (Date 2024 5 1) {[ "Site Name" := CStr "   " ]} "" "").
    reflexivity.
  - apply (entry_filename_placeholder (Date 2024 5 1) {[ "Site Name" := CInt 7 ]} "" "").
    reflexivity.
  - apply (entry_filename_placeholder (Date 2024 5 1) ∅ "" ""). reflexivity.
Defined.

(** ** Image resolution *)

Section SplitAll.

Variable sep : ascii.
Implicit Types (s : string).

Lemma count_app s t : Py.count sep (s +:+ t) = Py.count sep s + Py.count sep t.
Proof. induction s as [|c s IH]; simpl; [done|]. rewrite IH. lia. Qed.

(** Unbounded splitting leaves no separator in any piece. *)
Lemma split_all_pieces s :
  Forall (λ p, Py.count sep p = 0) (Py.split sep None s).
Proof.
  unfold Py.split. induction s as [|c s IH]; simpl.
  - by repeat constructor.
  - destruct (Py.split_go sep None s) as [h t].
    apply Forall_cons in IH as [Hh Ht].
    destruct (Ascii.eqb c sep) eqn:Hc.
    + by repeat constructor.
    + constructor; [|done]. simpl. by rewrite Hc.
Qed.

(** Joining the pieces with the separator gives the text back. *)
Lemma join_split_all s : Py.join (String sep "") (Py.split sep None s) = s.
Proof.
  unfold Py.split. induction s as [|c s IH]; [done|].
  cbn [Py.split_go]. destruct (Py.split_go sep None s) as [h t].
  destruct (Ascii.eqb_spec c sep) as [->|Hne].
  - change (Py.join (String sep "") ("" :: h :: t))
      with ("" +:+ String sep "" +:+ Py.join (String sep "") (h :: t)).
    by rewrite IH.
  - destruct t as [|p t]; cbn [Py.join] in *; [congruence|].
    rewrite <- IH. done.
Qed.

Lemma strip_no_sep s : Py.count sep s = 0 → Py.count sep (Py.strip s) = 0.
Proof.
  unfold Py.strip. intros Hs.
  destruct (lstrip_suffix s) as [t Ht].
  destruct (rstrip_prefix (Py.lstrip s)) as [t' Ht'].
  rewrite Ht, Ht', !count_app in Hs. lia.
Qed.

End SplitAll.

(** X24. Every reference handed to the downloader is a piece of the
    field that is not empty, is trimmed, and holds no comma. *)
Lemma image_urls_clean (images_raw u : string) :
  u ∈ image_urls images_raw →
  u ≠ "" ∧ Py.strip u = u ∧ Py.count "," u = 0.
Proof.
  unfold image_urls.
  intros (p & -> & Hp)%list_elem_of_fmap.
  apply list_elem_of_In, filter_In in Hp as [Hin Htruthy].
  split; [|split].
  - intros Heq. by rewrite Heq in Htruthy.
  - apply strip_idemp.
  - apply strip_no_sep.
    pose proof (split_all_pieces "," images_raw) as Hall.
    rewrite Forall_forall in Hall. apply Hall. by apply list_elem_of_In.
Qed.

Lemma image_urls_clean_witness :
  "a" ≠ "" ∧ Py.strip "a" = "a" ∧ Py.count "," "a" = 0.
Proof. apply (image_urls_clean " a , ,b" "a"). vm_compute. repeat constructor. Defined.

Section Resolver.

Context `{External}.

(** One download: no fetch without an identifier; otherwise one fetch,
    whose failure is caught. *)
Lemma download_drive_image_run (url : string) (w : World) :
  download_drive_image url w =
  match extract_drive_file_id url with
  | "" => (Ret None, w)
  | file_id =>
      let '(r, w1) :=
        requests_get
          ("https://drive.google.com/uc?export=download&id=" +:+ file_id) w in
      (Ret (accepted r), w1)
  end.
Proof.
  unfold download_drive_image.
  destruct (extract_drive_file_id url) as [|c fid]; [done|].
  cbn [Py.truthy negb]. unfold try_except, mbind, IO_bind, accepted.
  destruct (requests_get _ w) as [[resp|e] w1]; [|done].
  destruct (status_code resp =? 200)%Z; [|done].
  by destruct (Py.startswith "image/" _).
Qed.

Lemma download_drive_image_returns (url : string) (w : World) :
  ∃ r w', download_drive_image url w = (Ret r, w').
Proof.
  rewrite download_drive_image_run.
  destruct (extract_drive_file_id url); [by eauto|].
  destruct (requests_get _ w). by eauto.
Qed.

(** The loop appends the accepted payloads to what it has. *)
Lemma resolve_loop (refs : list string) (image_objs : list bytes) (w : World) :
  for_each refs
    (λ image_objs url,
       img_bytes ← download_drive_image url;
       mret (match img_bytes with
             | Some b => image_objs ++ [b]
             | None => image_objs
             end))
    image_objs w
  = let '(l, w') := accepted_payloads refs w in (Ret (image_objs ++ l), w').
Proof.
  revert image_objs w. induction refs as [|u refs IH]; intros image_objs w.
  - simpl. by rewrite app_nil_r.
  - cbn [for_each accepted_payloads].
    unfold mbind at 1. unfold IO_bind at 1.
    unfold mbind at 1. unfold IO_bind at 1.
    rewrite download_drive_image_run.
    destruct (extract_drive_file_id u) as [|c fid].
    + unfold mret, IO_ret. apply IH.
    + destruct (requests_get _ w) as [r w1].
      unfold mret, IO_ret. rewrite IH.
      destruct (accepted_payloads refs w1) as [rest w2].
      destruct (accepted r); simpl; [|done].
      by rewrite <- (assoc_L (++)).
Qed.

Lemma accepted_payloads_length (refs : list string) (w : World) :
  length (accepted_payloads refs w).1 ≤ length refs.
Proof.
  revert w. induction refs as [|u refs IH]; intros w; simpl; [done|].
  destruct (extract_drive_file_id u) as [|c fid].
  - specialize (IH w). lia.
  - destruct (requests_get _ w) as [r w1]. specialize (IH w1).
    destruct (accepted_payloads refs w1) as [rest w2]. simpl in *.
    rewrite length_app. destruct (accepted r); simpl; lia.
Qed.

End Resolver.

(** C1. Image resolution returns for every text, and never raises.  The
    references are the comma-separated pieces of the text, trimmed,
    blank ones dropped; the result is the list of accepted payloads of
    those references in their order: nothing for a reference without an
    identifier, the payload for a response with status 200 and a
    content type starting with [image/], nothing for any other response
    or for a failed fetch. *)
Theorem resolve_images_accepted `{External} (images_raw : string) (w : World) :
  ∃ image_objs w',
    resolve_images images_raw w = (Ret image_objs, w')
    ∧ (image_objs, w') = accepted_payloads (image_urls images_raw) w
    ∧ length image_objs ≤ length (image_urls images_raw)
    ∧ Py.join "," (Py.split "," None images_raw) = images_raw
    ∧ ∀ u, u ∈ image_urls images_raw ↔
           ∃ p, p ∈ Py.split "," None images_raw ∧ Py.strip p ≠ "" ∧ u = Py.strip p.
Proof.
  destruct (accepted_payloads (image_urls images_raw) w) as [l w'] eqn:Hacc.
  exists l, w'. split; [|split; [done|split; [|split]]].
  - unfold resolve_images. destruct images_raw as [|c s] eqn:Hraw.
    + vm_compute in Hacc. by injection Hacc as <- <-.
    + cbn [Py.truthy]. by rewrite resolve_loop, Hacc.
  - pose proof (accepted_payloads_length (image_urls images_raw) w) as Hlen.
    by rewrite Hacc in Hlen.
  - apply (join_split_all ",").
  - intros u. unfold image_urls. rewrite list_elem_of_fmap. split.
    + intros (p & -> & [Hin Ht]%list_elem_of_In%filter_In).
      exists p. split; [by apply list_elem_of_In|]. split; [|done].
      intros Heq. by rewrite Heq in Ht.
    + intros (p & Hin & Hne & ->). exists p. split; [done|].
      apply list_elem_of_In, filter_In. split; [by apply list_elem_of_In|].
      by destruct (Py.strip p).
Qed.

Lemma resolve_images_accepted_witness :
  ∃ image_objs w',
    @resolve_images Demo.external "https://drive.google.com/open?id=GOOD, x" []
    = (Ret image_objs, w')
    ∧ (image_objs, w')
      = @accepted_payloads Demo.external
          (image_urls "https://drive.google.com/open?id=GOOD, x") []
    ∧ length image_objs
      ≤ length (image_urls "https://drive.google.com/open?id=GOOD, x")
    ∧ Py.join "," (Py.split "," None "https://drive.google.com/open?id=GOOD, x")
      = "https://drive.google.com/open?id=GOOD, x"
    ∧ ∀ u, u ∈ image_urls "https://drive.google.com/open?id=GOOD, x" ↔
           ∃ p, p ∈ Py.split "," None "https://drive.google.com/open?id=GOOD, x"
                ∧ Py.strip p ≠ "" ∧ u = Py.strip p.
Proof.
  apply (@resolve_images_accepted Demo.external
           "https://drive.google.com/open?id=GOOD, x" []).
Defined.

(** One image link, one text that is no link, one link to a web page:
    exactly the image is returned. *)
Example resolve_images_three_links :
  @resolve_images Demo.external
    "https://drive.google.com/open?id=GOOD, not a link ,https://drive.google.com/file/d/PAGE/view"
    []
  = (Ret [Demo.png],
     ["GET https://drive.google.com/uc?export=download&id=GOOD";
      "GET https://drive.google.com/uc?export=download&id=PAGE"]).
Proof. vm_compute. reflexivity. Qed.

(** A failed fetch skips that reference only; order is kept. *)
Example resolve_images_transport_failure :
  (@resolve_images Demo.external
     "https://drive.google.com/open?id=DOWN,,https://drive.google.com/open?id=GOOD,https://drive.google.com/open?id=GOOD"
     []).1
  = Ret [Demo.png; Demo.png].
Proof. vm_compute. reflexivity. Qed.

(** ** Batch export *)

Section Loop.

Context {W X S : Type}.
Implicit Types (body : S → X → IO W S) (xs ys : list X).

Lemma for_each_app xs ys body s w :
  for_each (xs ++ ys) body s w =
  match for_each xs body s w with
  | (Ret s', w') => for_each ys body s' w'
  | (Raise e, w') => (Raise e, w')
  end.
Proof.
  revert s w. induction xs as [|x xs IH]; intros s w; [done|].
  cbn [app for_each]. unfold mbind, IO_bind.
  destruct (body s x w) as [[s'|e] w']; [apply IH|done].
Qed.

(** The loop stops at the first turn that raises. *)
Lemma for_each_raise xs x ys body s s1 e w w1 w2 :
  for_each xs body s w = (Ret s1, w1) →
  body s1 x w1 = (Raise e, w2) →
  for_each (xs ++ x :: ys) body s w = (Raise e, w2).
Proof.
  intros Hxs Hx. rewrite for_each_app, Hxs.
  cbn [for_each]. unfold mbind, IO_bind. by rewrite Hx.
Qed.

End Loop.

Lemma insert_date_not_nil d l : insert_date d l ≠ [].
Proof.
  destruct l as [|x l]; simpl; [done|].
  destruct (date_ltb d x); [done|]. by destruct (bool_decide (d = x)).
Qed.

Lemma valid_dates_of_batch df selected_date :
  filter_by_date df selected_date ≠ [] → valid_dates df ≠ [].
Proof.
  rewrite filter_by_date_filter. unfold valid_dates.
  induction df as [|r df IH]; [done|].
  rewrite filter_cons. cbn [omap list_omap].
  destruct (dt_date r) as [d|] eqn:Hd.
  - intros _. apply insert_date_not_nil.
  - rewrite decide_False; [done|]. unfold date_matches. by rewrite Hd.
Qed.

Section BatchExport.

Context `{External}.
Implicit Types (r : Row) (df : list Row) (w : World).

Lemma export_row_fails selected_date zipf r w e w' :
  row_fails r w e w' → export_row selected_date zipf r w = (Raise e, w').
Proof.
  unfold export_row.
  intros [Hrender|(docx_buf & wa & tmp & wb & Hrender & Htmp & Hconv)].
  - unfold mbind at 1. unfold IO_bind at 1. by rewrite Hrender.
  - unfold mbind at 1. unfold IO_bind at 1. rewrite Hrender.
    unfold mbind at 1. unfold IO_bind at 1. rewrite Htmp.
    unfold mbind at 1. unfold IO_bind at 1. by rewrite Hconv.
Qed.

Lemma generate_report_first_failure selected_date before r after zipf e w w1 w2 :
  for_each before (export_row selected_date) [] w = (Ret zipf, w1) →
  export_row selected_date zipf r w1 = (Raise e, w2) →
  generate_report (before ++ r :: after) selected_date w
  = (Ret [St_error "Error generating PDF ZIP:"; St_exception e], w2).
Proof.
  intros Hbefore Hr. unfold generate_report.
  by rewrite (for_each_raise _ _ _ _ _ _ _ _ _ _ Hbefore Hr).
Qed.

(** The page up to the batch: the date picker and the header. *)
Lemma main_content_batch df selected_date clicked w :
  filter_by_date df selected_date ≠ [] →
  ∃ value min_value max_value,
    main_content (Some df) selected_date clicked w =
    let df_date := filter_by_date df selected_date in
    let shown :=
      [St_date_input "Select Date" value min_value max_value;
       St_subheader ("Records for " +:+ isoformat selected_date);
       St_dataframe df_date] in
    match path_exists template_path w with
    | (Ret found, w0) =>
        if negb found then
          (Ret (shown ++ [St_error "❌ template.docx not found in project folder."]), w0)
        else if clicked then
          match generate_report df_date selected_date w0 with
          | (Ret out, w') => (Ret (shown ++ St_button "Generate Report" :: out), w')
          | (Raise e, w') => (Raise e, w')
          end
        else (Ret (shown ++ [St_button "Generate Report"]), w0)
    | (Raise e, w0) => (Raise e, w0)
    end.
Proof.
  intros Hbatch. pose proof (valid_dates_of_batch _ _ Hbatch) as Hdates.
  unfold main_content.
  destruct (valid_dates df) as [|first dates]; [done|].
  do 3 eexists.
  destruct (filter_by_date df selected_date) as [|r0 df_date]; [done|].
  unfold mbind, IO_bind.
  destruct (path_exists template_path w) as [[[|]|e] w0]; simpl; try done.
  destruct clicked; [|done].
  by destruct (generate_report (r0 :: df_date) selected_date w0) as [[out|e] w'].
Qed.

End BatchExport.

(** C7. When the rows before some row of the batch are exported and
    that row fails, in rendering or in conversion, a click on the
    generate button ends with the error message and the exception: the
    rows after it are not processed (the result and the world do not
    depend on them, the world is the one the failure left) and no
    download is offered. *)
Theorem export_aborts_on_row_failure `{External} (df : list Row)
    (selected_date : date) (before after : list Row) (r : Row)
    (zipf : list (string * bytes)) (e : exn) (w w0 w1 w2 : World) :
  filter_by_date df selected_date = before ++ r :: after →
  path_exists template_path w = (Ret true, w0) →
  for_each before (export_row selected_date) [] w0 = (Ret zipf, w1) →
  row_fails r w1 e w2 →
  generate_report (before ++ r :: after) selected_date w0
  = (Ret [St_error "Error generating PDF ZIP:"; St_exception e], w2)
  ∧ ∃ value min_value max_value events,
      main_content (Some df) selected_date true w = (Ret events, w2)
      ∧ events = [St_date_input "Select Date" value min_value max_value;
                  St_subheader ("Records for " +:+ isoformat selected_date);
                  St_dataframe (before ++ r :: after);
                  St_button "Generate Report";
                  St_error "Error generating PDF ZIP:";
                  St_exception e]
      ∧ ∀ label data file_name mime,
          St_download_button label data file_name mime ∉ events.
Proof.
  intros Hbatch Hpath Hbefore Hfail.
  apply (export_row_fails selected_date zipf) in Hfail.
  pose proof (generate_report_first_failure _ _ _ after _ _ _ _ _ Hbefore Hfail)
    as Hgen.
  split; [done|].
  destruct (main_content_batch df selected_date true w)
    as (value & min_value & max_value & Hmain).
  { rewrite Hbatch. by destruct before. }
  exists value, min_value, max_value. eexists.
  split; [|split; [reflexivity|]].
  - rewrite Hmain. cbn zeta. rewrite Hpath. cbn [negb].
    rewrite Hbatch, Hgen. done.
  - intros label data file_name mime Hin.
    repeat (apply elem_of_cons in Hin as [Heq|Hin]; [discriminate Heq|]).
    by apply elem_of_nil in Hin.
Qed.

Lemma export_aborts_on_row_failure_witness :
  let df := [Demo.row_a; Demo.row_b; Demo.row_bad; Demo.row_c; Demo.row_a] in
  let e := Exn OtherException "template error" in
  @generate_report Demo.external [Demo.row_a; Demo.row_bad; Demo.row_a]
    (Date 2024 5 1) []
  = (Ret [St_error "Error generating PDF ZIP:"; St_exception e],
     ["render"; "convert /tmp/tmp0.docx"; "remove /tmp/tmp0.docx";
      "remove /tmp/tmp0.pdf"; "render"])
  ∧ ∃ value min_value max_value events,
      @main_content Demo.external (Some df) (Date 2024 5 1) true []
      = (Ret events,
         ["render"; "convert /tmp/tmp0.docx"; "remove /tmp/tmp0.docx";
          "remove /tmp/tmp0.pdf"; "render"])
      ∧ events = [St_date_input "Select Date" value min_value max_value;
                  St_subheader "Records for 2024-05-01";
                  St_dataframe [Demo.row_a; Demo.row_bad; Demo.row_a];
                  St_button "Generate Report";
                  St_error "Error generating PDF ZIP:";
                  St_exception e]
      ∧ ∀ label data file_name mime,
          St_download_button label data file_name mime ∉ events.
Proof.
  apply (@export_aborts_on_row_failure Demo.external
           [Demo.row_a; Demo.row_b; Demo.row_bad; Demo.row_c; Demo.row_a]
           (Date 2024 5 1) [Demo.row_a] [Demo.row_a] Demo.row_bad
           [("2024-05-01_Candid_Manesar.pdf",
             [Byte.x25; Byte.x50; Byte.x44; Byte.x46])]
           (Exn OtherException "template error")
           [] []
           ["render"; "convert /tmp/tmp0.docx"; "remove /tmp/tmp0.docx";
            "remove /tmp/tmp0.pdf"]).
  - reflexivity.
  - reflexivity.
  - vm_compute. reflexivity.
  - left. vm_compute. reflexivity.
Defined.

(** C9. When no row of the table has the selected date, the page ends
    with the warning that there are no records: no collaborator is
    called, no archive is built, no download is offered, and the
    generate button is not shown, clicked or not. *)
Theorem no_records_no_archive `{External} (df : list Row)
    (selected_date : date) (clicked : bool) (w : World) :
  filter_by_date df selected_date = [] →
  ∃ events,
    main_content (Some df) selected_date clicked w = (Ret events, w)
    ∧ (valid_dates df ≠ [] →
       ∃ value min_value max_value,
         events = [St_date_input "Select Date" value min_value max_value;
                   St_subheader ("Records for " +:+ isoformat selected_date);
                   St_warning "No records for this date."])
    ∧ (∀ label, St_button label ∉ events)
    ∧ (∀ label data file_name mime,
         St_download_button label data file_name mime ∉ events).
Proof.
  intros Hbatch. unfold main_content. rewrite Hbatch.
  destruct (valid_dates df) as [|first dates]; eexists;
    (split; [reflexivity|]); (split; [|split]).
  - done.
  - intros label Hin.
    repeat (apply elem_of_cons in Hin as [Heq|Hin]; [discriminate Heq|]).
    by apply elem_of_nil in Hin.
  - intros label data file_name mime Hin.
    repeat (apply elem_of_cons in Hin as [Heq|Hin]; [discriminate Heq|]).
    by apply elem_of_nil in Hin.
  - intros _. by do 3 eexists.
  - intros label Hin.
    repeat (apply elem_of_cons in Hin as [Heq|Hin]; [discriminate Heq|]).
    by apply elem_of_nil in Hin.
  - intros label data file_name mime Hin.
    repeat (apply elem_of_cons in Hin as [Heq|Hin]; [discriminate Heq|]).
    by apply elem_of_nil in Hin.
Qed.

Lemma no_records_no_archive_witness :
  ∃ events,
    @main_content Demo.external (Some [Demo.row_a; Demo.row_b; Demo.row_c])
      (Date 2024 5 2) true []
    = (Ret events, [])
    ∧ (valid_dates [Demo.row_a; Demo.row_b; Demo.row_c] ≠ [] →
       ∃ value min_value max_value,
         events = [St_date_input "Select Date" value min_value max_value;
                   St_subheader "Records for 2024-05-02";
                   St_warning "No records for this date."])
    ∧ (∀ label, St_button label ∉ events)
    ∧ (∀ label data file_name mime,
         St_download_button label data file_name mime ∉ events).
Proof.
  apply (@no_records_no_archive Demo.external
           [Demo.row_a; Demo.row_b; Demo.row_c] (Date 2024 5 2) true []).
  reflexivity.
Defined.

(** With every row exported, the same click offers the archive. *)
Example generate_report_success :
  (@generate_report Demo.external [Demo.row_a; Demo.row_a] (Date 2024 5 1) []).1
  = Ret [St_download_button "⬇️ Download ZIP (PDF)"
           [("2024-05-01_Candid_Manesar.pdf", [Byte.x25; Byte.x50; Byte.x44; Byte.x46]);
            ("2024-05-01_Candid_Manesar.pdf", [Byte.x25; Byte.x50; Byte.x44; Byte.x46])]
           "night_checks_2024-05-01.zip" "application/zip"].
Proof. vm_compute. reflexivity. Qed.

(** * Further properties of the code *)

(** ** Identifier extraction on the documented link forms *)

Section SearchRuns.

Variables (pre : string) (cls : ascii → bool) (post : string).
Implicit Types (s g rest : string) (x : ascii).

Lemma search_skip c s :
  Re.match_at pre cls post (String c s) = None →
  Re.search pre cls post (String c s) = Re.search pre cls post s.
Proof. intros Hm. rewrite search_unfold. by rewrite Hm. Qed.

Lemma search_hit g s :
  Re.match_at pre cls post s = Some g → Re.search pre cls post s = Some g.
Proof. intros Hm. rewrite search_unfold. by rewrite Hm. Qed.

(** A run of class characters that ends where the closing literal
    starts is the captured group. *)
Lemma group_plus_run g rest :
  Py.all cls g = true → g ≠ "" →
  (∀ c r, rest = String c r → cls c = false) →
  Py.startswith post rest = true →
  Re.group_plus cls post (g +:+ rest) = Some g.
Proof.
  intros Hall Hne Hrest Hpost.
  assert (Hnone : Re.group_plus cls post rest = None).
  { destruct rest as [|c r]; [done|]. simpl. by rewrite (Hrest c r). }
  induction g as [|c g IH]; [done|].
  simpl in Hall. apply andb_prop in Hall as [Hc Hg].
  simpl. rewrite Hc. destruct g as [|c' g'].
  - simpl. by rewrite Hnone, Hpost.
  - by rewrite IH.
Qed.

(** A run of class characters up to the end of the text is no match
    when the closing literal starts with a character outside the class. *)
Lemma group_plus_open_end p post' g :
  post = String p post' → cls p = false →
  Py.all cls g = true → Re.group_plus cls post g = None.
Proof.
  intros -> Hp. induction g as [|c g IH]; [done|].
  simpl. intros [Hc Hg]%andb_prop. rewrite Hc, (IH Hg).
  destruct g as [|c' g]; [done|].
  simpl in Hg. apply andb_prop in Hg as [Hc' _].
  unfold Py.startswith.
  change (String.prefix (String p post') (String c' g))
    with (if ascii_dec p c' then String.prefix post' g else false).
  destruct (ascii_dec p c') as [->|_]; [congruence|done].
Qed.

Lemma startswith_count x p s :
  Py.startswith p s = true → Py.count x p ≤ Py.count x s.
Proof.
  unfold Py.startswith. revert s.
  induction p as [|c p IH]; intros s; [simpl; lia|].
  destruct s as [|c' s]; [done|].
  change (String.prefix (String c p) (String c' s))
    with (if ascii_dec c c' then String.prefix p s else false).
  destruct (ascii_dec c c') as [->|_]; [|done].
  intros Hp%IH. simpl. lia.
Qed.

(** A text with fewer occurrences of some character than the opening
    literal has cannot match. *)
Lemma search_count x s :
  Py.count x s < Py.count x pre → Re.search pre cls post s = None.
Proof.
  induction s as [|c s IH]; intros Hlt.
  - simpl. unfold Re.match_at.
    destruct (Py.startswith pre "") eqn:Hp; [|done].
    apply (startswith_count x) in Hp. simpl in *. lia.
  - rewrite search_skip.
    + apply IH. simpl in Hlt. lia.
    + unfold Re.match_at.
      destruct (Py.startswith pre (String c s)) eqn:Hp; [|done].
      apply (startswith_count x) in Hp. lia.
Qed.

End SearchRuns.

Lemma prefix_empty (s : string) : String.prefix "" s = true.
Proof. by destruct s. Qed.

Lemma all_count (cls : ascii → bool) (x : ascii) (s : string) :
  cls x = false → Py.all cls s = true → Py.count x s = 0.
Proof.
  intros Hx. induction s as [|c s IH]; [done|].
  simpl. intros [Hc Hs]%andb_prop. rewrite (IH Hs).
  destruct (Ascii.eqb_spec c x) as [->|_]; [congruence|done].
Qed.

(** X1. For the documented address form
    [https://docs.google.com/spreadsheets/d/<id><rest>], with [<id>] a
    non-empty run of identifier characters and [<rest>] empty or
    starting with another character, the extractor returns [<id>]. *)
Theorem extract_sheet_id_of_url (id rest : string) :
  Py.all Re.id_char id = true → id ≠ "" →
  (∀ c r, rest = String c r → Re.id_char c = false) →
  extract_sheet_id ("https://docs.google.com/spreadsheets/d/" +:+ id +:+ rest) = id.
Proof.
  intros Hid Hne Hrest. unfold extract_sheet_id. cbn [String.append].
  repeat (rewrite search_skip by reflexivity).
  rewrite (search_hit _ _ _ id); [done|].
  unfold Re.match_at. cbn. rewrite prefix_empty.
  apply group_plus_run; try done. by destruct rest.
Qed.

Lemma extract_sheet_id_of_url_witness :
  extract_sheet_id "https://docs.google.com/spreadsheets/d/1AbC-d_9/edit#gid=0"
  = "1AbC-d_9".
Proof.
  apply (extract_sheet_id_of_url "1AbC-d_9" "/edit#gid=0").
  - reflexivity.
  - discriminate.
  - intros c r [= <- _]. reflexivity.
Defined.

(** X2. For a link of the form
    [https://drive.google.com/open?id=<id><rest>], with [<id>] a
    non-empty run of identifier characters and [<rest>] empty or
    starting with another character, the file identifier is [<id>]. *)
Theorem extract_drive_file_id_open (id rest : string) :
  Py.all Re.id_char id = true → id ≠ "" →
  (∀ c r, rest = String c r → Re.id_char c = false) →
  extract_drive_file_id ("https://drive.google.com/open?id=" +:+ id +:+ rest) = id.
Proof.
  intros Hid Hne Hrest. unfold extract_drive_file_id. cbn [String.append].
  repeat (rewrite search_skip by reflexivity).
  rewrite (search_hit _ _ _ id); [done|].
  unfold Re.match_at. cbn. rewrite prefix_empty.
  apply group_plus_run; try done. by destruct rest.
Qed.

Lemma extract_drive_file_id_open_witness :
  extract_drive_file_id "https://drive.google.com/open?id=FILE-1&usp=sharing"
  = "FILE-1".
Proof.
  apply (extract_drive_file_id_open "FILE-1" "&usp=sharing").
  - reflexivity.
  - discriminate.
  - intros c r [= <- _]. reflexivity.
Defined.

(** X3. For a link of the form
    [https://drive.google.com/file/d/<id>/<tail>], with [<id>] a
    non-empty run of identifier characters and no [=] in [<tail>], the
    file identifier is [<id>]. *)
Theorem extract_drive_file_id_view (id tail : string) :
  Py.all Re.id_char id = true → id ≠ "" → Py.count "=" tail = 0 →
  extract_drive_file_id ("https://drive.google.com/file/d/" +:+ id +:+ "/" +:+ tail)
  = id.
Proof.
  intros Hid Hne Htail. unfold extract_drive_file_id.
  rewrite (search_count _ _ _ "=").
  - cbn [String.append]. repeat (rewrite search_skip by reflexivity).
    rewrite (search_hit _ _ _ id); [done|].
    unfold Re.match_at. cbn. rewrite prefix_empty.
    apply group_plus_run; try done.
    + by intros c r [= <- _].
    + unfold Py.startswith. cbn. apply prefix_empty.
  - rewrite !count_app, (all_count Re.id_char "=" id) by done.
    rewrite Htail. vm_compute. lia.
Qed.

Lemma extract_drive_file_id_view_witness :
  extract_drive_file_id "https://drive.google.com/file/d/FILE_ID/view" = "FILE_ID".
Proof.
  apply (extract_drive_file_id_view "FILE_ID" "view"); [reflexivity|discriminate|reflexivity].
Defined.

(** X4. A bare identifier is not a link: for a text made of identifier
    characters only, no file identifier is found, and the download
    returns nothing without any request. *)
Theorem download_drive_image_bare_id `{External} (id : string) (w : World) :
  Py.all Re.id_char id = true →
  extract_drive_file_id id = ""
  ∧ download_drive_image id w = (Ret None, w).
Proof.
  intros Hid.
  assert (Hnone : extract_drive_file_id id = "").
  { unfold extract_drive_file_id.
    rewrite (search_count _ _ _ "="), (search_count _ _ _ "/"); [done| |].
    - rewrite (all_count Re.id_char "/" id) by done. vm_compute. lia.
    - rewrite (all_count Re.id_char "=" id) by done. vm_compute. lia. }
  split; [done|]. unfold download_drive_image. by rewrite Hnone.
Qed.

Lemma download_drive_image_bare_id_witness :
  extract_drive_file_id "FILE_ID" = ""
  ∧ @download_drive_image Demo.external "FILE_ID" [] = (Ret None, []).
Proof. apply (@download_drive_image_bare_id Demo.external "FILE_ID" []). reflexivity. Defined.

(** X5. A [/file/d/<id>] link without the slash that closes the
    identifier is not recognised. *)
Theorem extract_drive_file_id_unclosed (id : string) :
  Py.all Re.id_char id = true →
  extract_drive_file_id ("https://drive.google.com/file/d/" +:+ id) = "".
Proof.
  intros Hid. unfold extract_drive_file_id.
  rewrite (search_count _ _ _ "=").
  - cbn [String.append]. repeat (rewrite search_skip by reflexivity).
    rewrite search_skip.
    + rewrite (search_count _ _ _ "/"); [done|].
      simpl. rewrite (all_count Re.id_char "/" id) by done. vm_compute. lia.
    + unfold Re.match_at. cbn. rewrite prefix_empty.
      by apply (group_plus_open_end _ _ "/" "").
  - rewrite count_app, (all_count Re.id_char "=" id) by done. vm_compute. lia.
Qed.

Lemma extract_drive_file_id_unclosed_witness :
  extract_drive_file_id "https://drive.google.com/file/d/FILEID" = "".
Proof. apply (extract_drive_file_id_unclosed "FILEID"). reflexivity. Defined.

(** X6. The file identifier is empty or a run of identifier characters:
    nothing else of a link reaches the download address. *)
Theorem extract_drive_file_id_shape (url : string) :
  extract_drive_file_id url = ""
  ∨ (extract_drive_file_id url ≠ ""
     ∧ Py.all Re.id_char (extract_drive_file_id url) = true).
Proof.
  unfold extract_drive_file_id.
  destruct (Re.search "id=" Re.id_char "" url) as [g|] eqn:H1.
  - right. apply search_class in H1 as [? ?]. done.
  - destruct (Re.search "/d/" Re.id_char "/" url) as [g|] eqn:H2; [|by left].
    right. apply search_class in H2 as [? ?]. done.
Qed.

(** ** The site label, encoded and decoded *)

(** X7. Decoding inverts encoding: for a zone and a unit code without
    separator and three trimmed parts, the label
    [zone-unit_code-site_name] decodes to exactly these parts, also when
    the site name contains separators. *)
Theorem parse_site_name_round_trip (zone unit_code site_name : string) :
  Py.count "-" zone = 0 → Py.count "-" unit_code = 0 →
  Py.strip zone = zone → Py.strip unit_code = unit_code →
  Py.strip site_name = site_name →
  parse_site_name (CStr (Py.join "-" [zone; unit_code; site_name]))
  = (zone, unit_code, site_name).
Proof.
  intros Hz Hu Hsz Hsu Hsn. unfold parse_site_name. cbn [Py.join].
  change (zone +:+ "-" +:+ unit_code +:+ "-" +:+ site_name)
    with (zone +:+ String "-" (unit_code +:+ String "-" site_name)).
  rewrite split_first by done. rewrite split_first by done.
  rewrite split_zero. cbn [length nth Nat.ltb Nat.leb]. by rewrite Hsz, Hsu, Hsn.
Qed.

Lemma parse_site_name_round_trip_witness :
  parse_site_name (CStr "4-361-Candid - Manesar") = ("4", "361", "Candid - Manesar").
Proof.
  apply (parse_site_name_round_trip "4" "361" "Candid - Manesar"); reflexivity.
Defined.

(** X8. Whatever the cell, the decoded parts are trimmed, and neither
    the zone nor the unit code contains a separator: only the site name
    can. *)
Theorem parse_site_name_parts (raw : cell) :
  ∃ zone unit_code site_name,
    parse_site_name raw = (zone, unit_code, site_name)
    ∧ Py.count "-" zone = 0 ∧ Py.count "-" unit_code = 0
    ∧ Py.strip zone = zone ∧ Py.strip unit_code = unit_code
    ∧ Py.strip site_name = site_name.
Proof.
  destruct raw as [s| | | |]; try (by exists "", "", "").
  destruct (decide (Py.count "-" s < 2)) as [Hc|Hc].
  - exists "", "", (Py.strip s). unfold parse_site_name.
    pose proof (split2_short "-" s Hc) as Hlen.
    destruct (Nat.ltb_spec (length (Py.split "-" (Some 2) s)) 3); [|lia].
    repeat split; try done. apply strip_idemp.
  - destruct (split2_long "-" s) as (a & b & c & _ & Ha & Hb & Hsplit); [lia|].
    exists (Py.strip a), (Py.strip b), (Py.strip c).
    unfold parse_site_name. rewrite Hsplit. cbn [length nth Nat.ltb Nat.leb].
    repeat split; auto using strip_no_sep, strip_idemp.
Qed.

(** ** The shape of the render context *)

Lemma build_context_other zone unit_code site_name row k :
  k ∉ context_keys → build_context zone unit_code site_name row !! k = None.
Proof. intros Hk. unfold build_context. by apply not_elem_of_list_to_map_1. Qed.

(** X9. The context handed to the template has exactly the fourteen
    declared keys and [images], whatever columns the row has; [images]
    holds the inline images in their order, and the three site keys hold
    the decoded site label. *)
Theorem final_context_shape `{External} (row : gmap string cell)
    (images_inline : list Inline) :
  (∀ k, is_Some (final_context row images_inline !! k)
        ↔ k ∈ "images" :: context_keys)
  ∧ final_context row images_inline !! "images" = Some (Images images_inline)
  ∧ ∃ zone unit_code site_name,
      parse_site_name (row_get row "Site Name" (CStr "")) = (zone, unit_code, site_name)
      ∧ final_context row images_inline !! "zone" = Some (Scalar (CStr zone))
      ∧ final_context row images_inline !! "unit_code" = Some (Scalar (CStr unit_code))
      ∧ final_context row images_inline !! "site_name" = Some (Scalar (CStr site_name)).
Proof.
  split; [|split].
  - intros k. unfold final_context. rewrite elem_of_cons.
    destruct (decide ("images" = k)) as [<-|Hne].
    + rewrite lookup_insert_eq. split; [by left|by eauto].
    + rewrite lookup_insert_ne, lookup_fmap by done.
      destruct (row_context_lookup row k) as (z & u & n & _ & ->).
      rewrite !fmap_is_Some. split.
      * intros Hk. right. destruct (decide (k ∈ context_keys)); [done|].
        rewrite build_context_other in Hk by done. by destruct Hk.
      * intros [->|Hk]; [done|]. by apply build_context_keys.
  - unfold final_context. by rewrite lookup_insert_eq.
  - destruct (parse_site_name (row_get row "Site Name" (CStr "")))
      as [[zone unit_code] site_name] eqn:Hparse.
    exists zone, unit_code, site_name. split; [done|].
    unfold final_context, row_context. rewrite Hparse.
    rewrite !lookup_insert_ne, !lookup_fmap, !clean_context_lookup by done.
    unfold build_context. by simplify_map_eq.
Qed.

(** ** The dates offered by the date widget *)

Lemma date_ltb_spec (a b : date) :
  date_ltb a b = true ↔
  year a < year b
  ∨ (year a = year b
     ∧ (month a < month b ∨ (month a = month b ∧ day a < day b))).
Proof.
  unfold date_ltb.
  rewrite !orb_true_iff, !andb_true_iff, !orb_true_iff, !andb_true_iff.
  rewrite !Nat.ltb_lt, !Nat.eqb_eq. tauto.
Qed.

Lemma date_lt_trans (a b c : date) : date_lt a b → date_lt b c → date_lt a c.
Proof. unfold date_lt. rewrite !date_ltb_spec. lia. Qed.

Lemma date_lt_irrefl (a : date) : ¬ date_lt a a.
Proof. unfold date_lt. rewrite date_ltb_spec. lia. Qed.

Lemma date_lt_total (a b : date) : date_ltb a b = false → a ≠ b → date_lt b a.
Proof.
  intros Hab Hne. unfold date_lt. rewrite date_ltb_spec.
  assert (Hnot : ¬ date_ltb a b = true) by congruence.
  rewrite date_ltb_spec in Hnot.
  assert (¬ (year a = year b ∧ month a = month b ∧ day a = day b)).
  { intros (Hy & Hm & Hd). apply Hne. destruct a, b; simpl in *; congruence. }
  lia.
Qed.

Lemma insert_date_elem (d y : date) (l : list date) :
  y ∈ insert_date d l ↔ y = d ∨ y ∈ l.
Proof.
  induction l as [|x l IH]; simpl.
  - rewrite list_elem_of_singleton, elem_of_nil. tauto.
  - destruct (date_ltb d x).
    + by rewrite elem_of_cons.
    + destruct (bool_decide_reflect (d = x)) as [->|Hne].
      * rewrite elem_of_cons. tauto.
      * rewrite !elem_of_cons, IH. tauto.
Qed.

Lemma insert_date_sorted (d : date) (l : list date) :
  StronglySorted date_lt l → StronglySorted date_lt (insert_date d l).
Proof.
  induction l as [|x l IH]; simpl; intros Hl.
  - by repeat constructor.
  - apply StronglySorted_inv in Hl as [Hl Hx].
    destruct (date_ltb d x) eqn:Hdx.
    + constructor; [by constructor|].
      constructor; [done|]. rewrite Forall_forall in Hx |- *.
      intros y Hy. by apply (date_lt_trans d x y); [|apply Hx].
    + destruct (bool_decide_reflect (d = x)) as [->|Hne].
      * by constructor.
      * constructor; [by apply IH|].
        rewrite Forall_forall in Hx |- *.
        intros y [->|Hy]%insert_date_elem; [by apply date_lt_total|by apply Hx].
Qed.

Lemma valid_dates_elem (df : list Row) (d : date) :
  d ∈ valid_dates df ↔ ∃ r, r ∈ df ∧ dt_date r = Some d.
Proof.
  unfold valid_dates. rewrite <- list_elem_of_omap.
  induction (omap dt_date df) as [|x l IH]; simpl; [done|].
  rewrite insert_date_elem, elem_of_cons, IH. tauto.
Qed.

Lemma batch_not_empty (df : list Row) (d : date) :
  filter_by_date df d ≠ [] ↔ ∃ r, r ∈ df ∧ dt_date r = Some d.
Proof.
  rewrite filter_by_date_filter. split.
  - destruct (filter (date_matches d) df) as [|r l] eqn:Hf; [done|]. intros _.
    assert (Hr : r ∈ filter (date_matches d) df) by (rewrite Hf; left).
    apply list_elem_of_filter in Hr as [Hm Hr]. by exists r.
  - intros (r & Hr & Hd) Hf.
    assert (Hin : r ∈ filter (date_matches d) df)
      by by apply list_elem_of_filter.
    rewrite Hf in Hin. by apply elem_of_nil in Hin.
Qed.

Lemma last_elem (x d : date) (l : list date) : List.last (x :: l) d ∈ x :: l.
Proof.
  revert x. induction l as [|y l IH]; intros x; [left|].
  right. apply IH.
Qed.

(** X10. The dates offered are sorted and without repetition (each is
    strictly before the next ones), and they are exactly the calendar
    dates of the rows whose date was parsed. *)
Theorem valid_dates_sorted_unique (df : list Row) :
  StronglySorted date_lt (valid_dates df)
  ∧ NoDup (valid_dates df)
  ∧ ∀ d, d ∈ valid_dates df ↔ ∃ r, r ∈ df ∧ dt_date r = Some d.
Proof.
  assert (Hsorted : StronglySorted date_lt (valid_dates df)).
  { unfold valid_dates. induction (omap dt_date df) as [|x l IH]; simpl.
    - constructor.
    - by apply insert_date_sorted. }
  split; [done|]. split; [|apply valid_dates_elem].
  induction Hsorted as [|x l Hl IH Hx]; constructor; [|done].
  intros Hin. rewrite Forall_forall in Hx.
  by apply (date_lt_irrefl x), Hx.
Qed.

(** X11. A date is offered exactly when it has records.  So the lower
    and the upper bound of the date widget, the latter being its
    default, always select a batch that is not empty. *)
Theorem valid_dates_have_records (df : list Row) :
  (∀ d, d ∈ valid_dates df ↔ filter_by_date df d ≠ [])
  ∧ ∀ first dates, valid_dates df = first :: dates →
      filter_by_date df first ≠ []
      ∧ filter_by_date df (List.last (first :: dates) first) ≠ [].
Proof.
  assert (Hiff : ∀ d, d ∈ valid_dates df ↔ filter_by_date df d ≠ []).
  { intros d. by rewrite valid_dates_elem, batch_not_empty. }
  split; [done|]. intros first dates Hdates. split; apply Hiff; rewrite Hdates.
  - left.
  - apply last_elem.
Qed.

Lemma valid_dates_have_records_witness :
  filter_by_date [Demo.row_a; Demo.row_b; Demo.row_c] (Date 2024 5 1) ≠ []
  ∧ filter_by_date [Demo.row_a; Demo.row_b; Demo.row_c]
      (List.last [Date 2024 5 1; Date 2024 5 3] (Date 2024 5 1)) ≠ [].
Proof.
  apply (proj2 (valid_dates_have_records [Demo.row_a; Demo.row_b; Demo.row_c])
           (Date 2024 5 1) [Date 2024 5 3]).
  reflexivity.
Defined.

(** ** Rendering a row *)

Section Rendering.

Context `{External}.
Implicit Types (row : gmap string cell) (w : World).

Lemma accepted_payloads_no_id (refs : list string) w :
  Forall (λ u, extract_drive_file_id u = "") refs →
  accepted_payloads refs w = ([], w).
Proof.
  induction 1 as [|u refs Hu _ IH]; [done|]. simpl. by rewrite Hu.
Qed.


Lemma resolve_images_no_id (images_raw : string) w :
  Forall (λ u, extract_drive_file_id u = "") (image_urls images_raw) →
  resolve_images images_raw w = (Ret [], w).
Proof.
  intros Hno. unfold resolve_images. destruct (Py.truthy images_raw); [|done].
  by rewrite resolve_loop, accepted_payloads_no_id.
Qed.

Lemma render_docx_for_row_run row path w :
  render_docx_for_row row path w =
  match resolve_images (images_field row) w with
  | (Ret image_objs, w1) =>
      (tpl ← docx_template path;
       images_inline ←
         for_each image_objs
           (λ images_inline img,
              try_except
                (i ← inline_image tpl img; mret (images_inline ++ [i]))
                except_UnrecognizedImageError
                (λ _, mret images_inline))
           [];
       _ ← tpl_render tpl (final_context row images_inline);
       tpl_save tpl) w1
  | (Raise e, w1) => (Raise e, w1)
  end.
Proof. reflexivity. Qed.


End Rendering.

(** X12. When no reference of the "Images" field carries a file
    identifier (the field is absent, empty, blank, or holds no link),
    the row is rendered without any request: the outcome and the world
    are those of loading the template, rendering it with an empty image
    list and saving it. *)
Theorem render_without_image_links `{External} (row : gmap string cell)
    (path : string) (w : World) :
  Forall (λ u, extract_drive_file_id u = "") (image_urls (images_field row)) →
  render_docx_for_row row path w
  = (tpl ← docx_template path;
     _ ← tpl_render tpl (final_context row []);
     tpl_save tpl) w.
Proof.
  intros Hno. rewrite render_docx_for_row_run, (resolve_images_no_id _ _ Hno).
  unfold mbind, IO_bind.
  destruct (docx_template path w) as [[tpl|e] w1]; [|done].
  reflexivity.
Qed.

Lemma render_without_image_links_witness :
  @render_docx_for_row Demo.external
    {[ "Site Name" := CStr "4-361-Candid Manesar"; "Images" := CStr " , not a link" ]}
    "template.docx" []
  = (Ret [Byte.x50; Byte.x4b], ["render"]).
Proof.
  etrans.
  - apply (@render_without_image_links Demo.external
             {[ "Site Name" := CStr "4-361-Candid Manesar";
                "Images" := CStr " , not a link" ]}
             "template.docx" []).
    vm_compute. repeat constructor.
  - vm_compute. reflexivity.
Defined.



(** ** The archive *)

Section Archive.

Context `{External}.
Implicit Types (r : Row) (df : list Row) (w : World)
  (zipf : list (string * bytes)).

(** A row that is exported adds one entry, under its entry name. *)
Lemma export_row_entry selected_date zipf r w z w' :
  export_row selected_date zipf r w = (Ret z, w') →
  ∃ pdf_bytes, z = zipf ++ [(entry_filename selected_date (cells r), pdf_bytes)].
Proof.
  unfold export_row, mbind, IO_bind, try_except, mret, IO_ret.
  destruct (render_docx_for_row _ _ w) as [[docx_buf|?] w1]; [|done].
  destruct (named_temporary_file _ _ w1) as [[tmp|?] w2]; [|done].
  destruct (convert _ _ w2) as [[[]|?] w3]; [|done].
  destruct (read_binary _ w3) as [[pdf_bytes|?] w4]; [|done].
  intros Hrest. exists pdf_bytes.
  destruct (os_remove tmp w4) as [[[]|e1] w5];
    [|destruct (except_OSError e1); [|done]];
    (destruct (os_remove _ w5) as [[[]|e2] w6];
     [|destruct (except_OSError e2); [|done]]);
    by injection Hrest as <- _.
Qed.

Lemma export_loop_names selected_date df zipf w z w' :
  for_each df (export_row selected_date) zipf w = (Ret z, w') →
  z.*1 = zipf.*1 ++ ((λ r, entry_filename selected_date (cells r)) <$> df).
Proof.
  revert zipf w. induction df as [|r df IH]; intros zipf w.
  - simpl. intros [= <- _]. by rewrite app_nil_r.
  - cbn [for_each]. unfold mbind, IO_bind.
    destruct (export_row selected_date zipf r w) as [[z1|e] w1] eqn:Hr; [|done].
    intros Hrest%IH. apply export_row_entry in Hr as [pdf_bytes ->].
    rewrite Hrest, fmap_app, fmap_cons. simpl. by rewrite <- (assoc_L (++)).
Qed.

End Archive.

(** X14. A click on the generate button never raises.  It ends either
    with the error message and the exception, or with exactly one
    download button, for the file [night_checks_<date>.zip], whose
    archive has one entry per row of the batch, in batch order, each
    under the entry name of its row. *)
Theorem generate_report_outcome `{External} (df_date : list Row)
    (selected_date : date) (w : World) :
  ∃ events w',
    generate_report df_date selected_date w = (Ret events, w')
    ∧ ((∃ e, events = [St_error "Error generating PDF ZIP:"; St_exception e])
       ∨ (∃ zip_buffer,
            events = [St_download_button "⬇️ Download ZIP (PDF)" zip_buffer
                        ("night_checks_" +:+ isoformat selected_date +:+ ".zip")
                        "application/zip"]
            ∧ zip_buffer.*1
              = (λ r, entry_filename selected_date (cells r)) <$> df_date
            ∧ length zip_buffer = length df_date)).
Proof.
  unfold generate_report.
  destruct (for_each df_date (export_row selected_date) [] w)
    as [[zip_buffer|e] w'] eqn:Hloop.
  - eexists _, _. split; [reflexivity|]. right. exists zip_buffer.
    apply export_loop_names in Hloop. simpl in Hloop.
    split; [done|]. split; [done|].
    by rewrite <- (length_fmap fst), Hloop, length_fmap.
  - eexists _, _. split; [reflexivity|]. left. by exists e.
Qed.

(** X15. A scratch file that cannot be removed does not fail the row:
    when the document is rendered, written, converted and read back, and
    [os.remove] raises nothing but [OSError], the row is exported and
    its entry is added to the archive. *)
Theorem export_row_cleanup_swallowed `{External} (selected_date : date)
    (zipf : list (string * bytes)) (r : Row)
    (docx_buf pdf_bytes : bytes) (tmp_docx_path : string)
    (w w1 w2 w3 w4 : World) :
  render_docx_for_row (cells r) template_path w = (Ret docx_buf, w1) →
  named_temporary_file ".docx" docx_buf w1 = (Ret tmp_docx_path, w2) →
  convert tmp_docx_path (Py.replace ".docx" ".pdf" tmp_docx_path) w2 = (Ret (), w3) →
  read_binary (Py.replace ".docx" ".pdf" tmp_docx_path) w3 = (Ret pdf_bytes, w4) →
  (∀ path w0, ∃ res w', os_remove path w0 = (res, w')
                        ∧ ∀ e, res = Raise e → exn_cls e = OSError) →
  ∃ w',
    export_row selected_date zipf r w
    = (Ret (zipf ++ [(entry_filename selected_date (cells r), pdf_bytes)]), w').
Proof.
  intros Hrender Htmp Hconvert Hread Hremove.
  unfold export_row, mbind, IO_bind, try_except, mret, IO_ret.
  rewrite Hrender, Htmp, Hconvert, Hread.
  destruct (Hremove tmp_docx_path w4) as (res1 & w5 & -> & H1).
  assert (∃ w6, (match res1 with
                 | Ret a => (Ret a, w5)
                 | Raise e => if except_OSError e then (Ret (), w5) else (Raise e, w5)
                 end) = (Ret (), w6)) as [w6 ->].
  { destruct res1 as [[]|e]; [by eauto|].
    unfold except_OSError. rewrite (H1 e eq_refl). by eauto. }
  destruct (Hremove (Py.replace ".docx" ".pdf" tmp_docx_path) w6)
    as (res2 & w7 & -> & H2).
  destruct res2 as [[]|e]; [by eauto|].
  unfold except_OSError. rewrite (H2 e eq_refl). by eauto.
Qed.

Lemma export_row_cleanup_swallowed_witness :
  ∃ w',
    @export_row Offline.external (Date 2024 5 1) [] Offline.row_with_links []
    = (Ret [("2024-05-01_Candid_Manesar.pdf",
             [Byte.x25; Byte.x50; Byte.x44; Byte.x46])], w').
Proof.
  apply (@export_row_cleanup_swallowed Offline.external (Date 2024 5 1) []
           Offline.row_with_links [Byte.x50; Byte.x4b]
           [Byte.x25; Byte.x50; Byte.x44; Byte.x46] "/tmp/tmp0.docx"
           []
           ["GET https://drive.google.com/uc?export=download&id=GOOD"; "render"]
           ["GET https://drive.google.com/uc?export=download&id=GOOD"; "render"]
           ["GET https://drive.google.com/uc?export=download&id=GOOD"; "render";
            "convert /tmp/tmp0.docx"]
           ["GET https://drive.google.com/uc?export=download&id=GOOD"; "render";
            "convert /tmp/tmp0.docx"]).
  - vm_compute. reflexivity.
  - reflexivity.
  - reflexivity.
  - reflexivity.
  - intros path w0. exists (Raise (Exn OSError "file in use")), w0.
    split; [reflexivity|]. by intros e [= <-].
Defined.

(** ** The scratch paths *)

Lemma string_length_app (s t : string) :
  String.length (s +:+ t) = String.length s + String.length t.
Proof. induction s as [|c s IH]; simpl; [done|]. by rewrite IH. Qed.

Lemma startswith_split (p s : string) :
  Py.startswith p s = true → ∃ b, s = p +:+ b.
Proof.
  unfold Py.startswith. revert s. induction p as [|c p IH]; intros s.
  - intros _. by exists s.
  - destruct s as [|c' s]; [done|].
    change (String.prefix (String c p) (String c' s))
      with (if ascii_dec c c' then String.prefix p s else false).
    destruct (ascii_dec c c') as [->|_]; [|done].
    intros [b ->]%IH. by exists b.
Qed.

(** X16. For a scratch name that ends in [.docx] and has no other
    occurrence of [.docx], the PDF is written beside the document: same
    name, with [.pdf] in place of [.docx]. *)
Theorem pdf_path_beside_docx (stem : string) :
  (∀ a b, stem +:+ ".docx" = a +:+ ".docx" +:+ b → b = "") →
  Py.replace ".docx" ".pdf" (stem +:+ ".docx") = stem +:+ ".pdf".
Proof.
  unfold Py.replace. induction stem as [|c stem IH]; intros Honly; [done|].
  change (Py.replace_go ".docx" ".pdf" 0 (String c stem +:+ ".docx"))
    with (if Py.startswith ".docx" (String c (stem +:+ ".docx"))
          then ".pdf" +:+ Py.replace_go ".docx" ".pdf" 4 (stem +:+ ".docx")
          else String c (Py.replace_go ".docx" ".pdf" 0 (stem +:+ ".docx"))).
  destruct (Py.startswith ".docx" (String c (stem +:+ ".docx"))) eqn:Hstart.
  - apply startswith_split in Hstart as [b Hb].
    assert (b = "") as -> by (by apply (Honly "" b)).
    apply (f_equal String.length) in Hb.
    simpl in Hb. rewrite string_length_app in Hb. simpl in Hb. lia.
  - rewrite IH; [done|]. intros a b Hab. apply (Honly (String c a) b).
    simpl. by rewrite Hab.
Qed.

Lemma pdf_path_beside_docx_witness :
  Py.replace ".docx" ".pdf" "/tmp/tmpab12.docx" = "/tmp/tmpab12.pdf".
Proof.
  apply (pdf_path_beside_docx "/tmp/tmpab12").
  intros a b Hab. simpl in Hab.
  repeat (destruct a as [|? a]; simpl in Hab;
          [first [discriminate Hab | congruence]
          |first [discriminate Hab | injection Hab as _ Hab]]).
Defined.

(** ** The page around the export *)

(** X17. With a batch that is not empty, nothing is exported unless the
    template is there and the button was clicked: otherwise the only
    call is the test for the template, and no download is offered.
    Without the template the page ends with the error about it and does
    not show the button. *)
Theorem main_content_without_export `{External} (df : list Row)
    (selected_date : date) (clicked found : bool) (w w0 : World) :
  filter_by_date df selected_date ≠ [] →
  path_exists template_path w = (Ret found, w0) →
  found = false ∨ clicked = false →
  ∃ events,
    main_content (Some df) selected_date clicked w = (Ret events, w0)
    ∧ (∀ label data file_name mime,
         St_download_button label data file_name mime ∉ events)
    ∧ (found = false →
       (∀ label, St_button label ∉ events)
       ∧ last events
         = Some (St_error "❌ template.docx not found in project folder.")).
Proof.
  intros Hbatch Hpath Hor.
  destruct (main_content_batch df selected_date clicked w Hbatch)
    as (value & min_value & max_value & ->).
  cbn zeta. rewrite Hpath.
  destruct found; cbn [negb].
  - destruct Hor as [? | ->]; [done|]. eexists. split; [reflexivity|].
    split; [|done]. intros label data file_name mime Hin. simpl in Hin.
    repeat (apply elem_of_cons in Hin as [Heq|Hin]; [discriminate Heq|]).
    by apply elem_of_nil in Hin.
  - eexists. split; [reflexivity|]. split; [|intros _; split; [|done]].
    + intros label data file_name mime Hin. simpl in Hin.
      repeat (apply elem_of_cons in Hin as [Heq|Hin]; [discriminate Heq|]).
      by apply elem_of_nil in Hin.
    + intros label Hin. simpl in Hin.
      repeat (apply elem_of_cons in Hin as [Heq|Hin]; [discriminate Heq|]).
      by apply elem_of_nil in Hin.
Qed.

Lemma main_content_without_export_witness :
  ∃ events,
    @main_content Demo.external (Some [Demo.row_a; Demo.row_b])
      (Date 2024 5 1) false []
    = (Ret events, [])
    ∧ (∀ label data file_name mime,
         St_download_button label data file_name mime ∉ events)
    ∧ (true = false →
       (∀ label, St_button label ∉ events)
       ∧ last events
         = Some (St_error "❌ template.docx not found in project folder.")).
Proof.
  apply (@main_content_without_export Demo.external [Demo.row_a; Demo.row_b]
           (Date 2024 5 1) false true [] []).
  - vm_compute. discriminate.
  - reflexivity.
  - by right.
Defined.

(** The page below the sidebar never raises as long as the test for the
    template returns: whatever fails during an export is caught. *)
Lemma main_content_returns `{External} :
  (∀ w, ∃ found w', path_exists template_path w = (Ret found, w')) →
  ∀ (session : option (list Row)) (selected_date : date) (clicked : bool)
    (w : World),
    ∃ events w', main_content session selected_date clicked w = (Ret events, w').
Proof.
  intros Hpath session selected_date clicked w.
  destruct session as [df|]; [|by eexists _, _].
  destruct (filter_by_date df selected_date) as [|r0 df_date] eqn:Hbatch.
  - unfold main_content. rewrite Hbatch.
    destruct (valid_dates df); by eexists _, _.
  - destruct (main_content_batch df selected_date clicked w)
      as (value & min_value & max_value & ->); [by rewrite Hbatch|].
    cbn zeta. destruct (Hpath w) as (found & w0 & ->).
    destruct found; cbn [negb]; [|by eexists _, _].
    destruct clicked; [|by eexists _, _].
    unfold generate_report.
    destruct (for_each _ _ _ w0) as [[zip_buffer|e] w']; by eexists _, _.
Qed.

(** ** Loading the sheet *)

Lemma base_url_form (sheet_input : string) (gid : option string) :
  ∃ rest,
    base_url sheet_input gid
    = "https://docs.google.com/spreadsheets/d/"
      +:+ extract_sheet_id sheet_input +:+ String "/" rest.
Proof.
  unfold base_url. destruct gid as [g|]; [destruct (Py.truthy g)|].
  - exists ("export?format=csv" +:+ "&gid=" +:+ g).
    change ("https://docs.google.com/spreadsheets/d/"
            +:+ extract_sheet_id sheet_input +:+ "/export?format=csv")
      with ("https://docs.google.com/spreadsheets/d/"
            +:+ (extract_sheet_id sheet_input +:+ "/export?format=csv")).
    by rewrite !string_app_assoc.
  - by eexists.
  - by eexists.
Qed.

(** X18. The address that is fetched names the sheet it was built for:
    when the identifier extracted from the input is a run of identifier
    characters (as it is whenever the input has a [/spreadsheets/d/<id>]
    segment), extracting from the fetched address gives that identifier
    back, with or without a worksheet id. *)
Theorem base_url_names_the_sheet (sheet_input : string) (gid : option string) :
  (Py.all Re.id_char (extract_sheet_id sheet_input) = true →
   extract_sheet_id sheet_input ≠ "" →
   extract_sheet_id (base_url sheet_input gid) = extract_sheet_id sheet_input)
  ∧ (∀ g, Re.search "/spreadsheets/d/" Re.id_char "" sheet_input = Some g →
          extract_sheet_id (base_url sheet_input gid) = g).
Proof.
  assert (Hmain : Py.all Re.id_char (extract_sheet_id sheet_input) = true →
    extract_sheet_id sheet_input ≠ "" →
    extract_sheet_id (base_url sheet_input gid) = extract_sheet_id sheet_input).
  { intros Hid Hne. destruct (base_url_form sheet_input gid) as [rest ->].
    generalize dependent (extract_sheet_id sheet_input). intros id Hid Hne.
    unfold extract_sheet_id. cbn [String.append].
    repeat (rewrite search_skip by reflexivity).
    rewrite (search_hit _ _ _ id); [done|].
    unfold Re.match_at. cbn. rewrite prefix_empty.
    apply group_plus_run; try done. by intros c r [= <- _]. }
  split; [done|]. intros g Hg.
  assert (Hext : extract_sheet_id sheet_input = g).
  { unfold extract_sheet_id. by rewrite Hg. }
  apply search_class in Hg as [Hid Hne].
  rewrite <- Hext in Hid, Hne |- *. by apply Hmain.
Qed.

Lemma base_url_names_the_sheet_witness :
  extract_sheet_id
    (base_url "https://docs.google.com/spreadsheets/d/1AbC-d_9/edit#gid=0"
       (Some "7"))
  = "1AbC-d_9"
  ∧ extract_sheet_id (base_url " 1AbC-d_9 " None) = extract_sheet_id " 1AbC-d_9 ".
Proof.
  split.
  - apply (proj2 (base_url_names_the_sheet
                    "https://docs.google.com/spreadsheets/d/1AbC-d_9/edit#gid=0"
                    (Some "7"))).
    reflexivity.
  - apply (proj1 (base_url_names_the_sheet " 1AbC-d_9 " None)).
    + reflexivity.
    + discriminate.
Defined.

Section Loader.

Context {W : Type} `{!Pandas W}.
Implicit Types (session : option (list Row)) (w : W).

(** X19. A click on the fetch button never raises, and it replaces the
    table of the session only when it succeeds: either the session is
    the one before and the first thing shown is an error, or the only
    thing shown is the success message and the session holds a fetched
    table that has a date column.  Without a sheet reference nothing is
    requested. *)
Theorem fetch_data_outcome session (sheet_input gid : string) w :
  ∃ session' events w',
    fetch_data session sheet_input gid w = (Ret (session', events), w')
    ∧ ((session' = session ∧ ∃ msg rest, events = Shown (St_error msg) :: rest)
       ∨ (events = [St_success "✅ Data loaded successfully."]
          ∧ ∃ df parsed, "Date" ∈ columns df
                         ∧ session' = Some (with_date_parsed df parsed)))
    ∧ (sheet_input = "" → w' = w ∧ session' = session).
Proof.
  unfold fetch_data. destruct sheet_input as [|c s].
  - eexists _, _, _. split; [reflexivity|]. split; [|done]. left. by eauto.
  - cbn [Py.truthy negb].
    unfold try_except, mbind, IO_bind, load_sheet_via_csv, mret, IO_ret.
    destruct (read_csv _ w) as [[df|e] w1].
    + destruct (bool_decide_reflect ("Date" ∈ columns df)) as [Hdate|Hdate].
      * destruct (to_datetime _ w1) as [[parsed|e] w2].
        -- eexists _, _, _. split; [reflexivity|]. split; [|done].
           right. split; [done|]. by exists df, parsed.
        -- eexists _, _, _. split; [reflexivity|]. split; [|done]. left. by eauto.
      * eexists _, _, _. split; [reflexivity|]. split; [|done]. left. by eauto.
    + eexists _, _, _. split; [reflexivity|]. split; [|done]. left. by eauto.
Qed.

(** X20. When the sheet is read, has a date column and its dates are
    parsed into one value per row, the session holds the fetched rows,
    unchanged and in their order, each beside its parsed date. *)
Theorem fetch_data_stores_table session (sheet_input gid : string)
    (df : DataFrame) (parsed : list (option Timestamp)) (w w1 w2 : W) :
  sheet_input ≠ "" →
  read_csv (base_url sheet_input (if Py.truthy gid then Some gid else None)) w
  = (Ret df, w1) →
  "Date" ∈ columns df →
  to_datetime (column df "Date") w1 = (Ret parsed, w2) →
  length parsed = length (records df) →
  ∃ rows,
    fetch_data session sheet_input gid w
    = (Ret (Some rows, [St_success "✅ Data loaded successfully."]), w2)
    ∧ cells <$> rows = records df
    ∧ Date_parsed <$> rows = parsed.
Proof.
  intros Hne Hread Hdate Hparse Hlen.
  exists (with_date_parsed df parsed). split; [|split].
  - unfold fetch_data. destruct sheet_input as [|c s]; [done|].
    cbn [Py.truthy negb].
    unfold try_except, mbind, IO_bind, load_sheet_via_csv, mret, IO_ret.
    rewrite Hread, (bool_decide_eq_true_2 _ Hdate), Hparse. done.
  - unfold with_date_parsed. apply fmap_zip_with_l; [done|lia].
  - unfold with_date_parsed. apply fmap_zip_with_r; [done|lia].
Qed.

End Loader.

Lemma fetch_data_stores_table_witness :
  ∃ rows,
    @fetch_data _ DemoSheet.pandas None
      "https://docs.google.com/spreadsheets/d/SHEET1/edit#gid=0" "" []
    = (Ret (Some rows, [St_success "✅ Data loaded successfully."]),
       ["GET https://docs.google.com/spreadsheets/d/SHEET1/export?format=csv"])
    ∧ cells <$> rows = records DemoSheet.frame
    ∧ Date_parsed <$> rows = [Some Demo.may_1; None].
Proof.
  apply (@fetch_data_stores_table _ DemoSheet.pandas None
           "https://docs.google.com/spreadsheets/d/SHEET1/edit#gid=0" ""
           DemoSheet.frame [Some Demo.may_1; None] []
           ["GET https://docs.google.com/spreadsheets/d/SHEET1/export?format=csv"]
           ["GET https://docs.google.com/spreadsheets/d/SHEET1/export?format=csv"]).
  - discriminate.
  - reflexivity.
  - unfold DemoSheet.frame. simpl. repeat constructor.
  - reflexivity.
  - reflexivity.
Defined.

Lemma fetch_data_outcome_witness :
  ∃ session' events w',
    @fetch_data _ DemoSheet.pandas (Some [Demo.row_a]) "" "7" []
    = (Ret (session', events), w')
    ∧ ((session' = Some [Demo.row_a]
        ∧ ∃ msg rest, events = Shown (St_error msg) :: rest)
       ∨ (events = [St_success "✅ Data loaded successfully."]
          ∧ ∃ df parsed, "Date" ∈ columns df
                         ∧ session' = Some (with_date_parsed df parsed)))
    ∧ ("" = "" → w' = [] ∧ session' = Some [Demo.row_a]).
Proof.
  apply (@fetch_data_outcome _ DemoSheet.pandas (Some [Demo.row_a]) "" "7" []).
Defined.

(** A failed fetch: the sheet cannot be read, the session is kept. *)
Example fetch_data_failure_keeps_session :
  @fetch_data _ DemoSheet.pandas (Some [Demo.row_a]) "UNKNOWN" "" []
  = (Ret (Some [Demo.row_a],
          [Shown (St_error "Failed fetching sheet:");
           Shown (St_exception (Exn OtherException "HTTP Error 404: Not Found"))]),
     ["GET https://docs.google.com/spreadsheets/d/UNKNOWN/export?format=csv"]).
Proof. reflexivity. Qed.

(** X21. A run of the page never raises as long as the test for the
    template returns.  It never discards a loaded table, and it leaves
    the session as it was when the fetch button was not clicked. *)
Theorem main_keeps_session `{External} `{!Pandas World} :
  (∀ w, ∃ found w', path_exists template_path w = (Ret found, w')) →
  ∀ (session : option (list Row)) (fetch_clicked : bool)
    (sheet_input gid : string) (selected_date : date) (clicked : bool)
    (w : World),
    ∃ session' events w',
      main session fetch_clicked sheet_input gid selected_date clicked w
      = (Ret (session', events), w')
      ∧ (fetch_clicked = false → session' = session)
      ∧ (is_Some session → is_Some session').
Proof.
  intros Hpath session fetch_clicked sheet_input gid selected_date clicked w.
  unfold main. unfold mbind at 1. unfold IO_bind at 1.
  assert (∃ loaded w1,
    (if fetch_clicked then fetch_data session sheet_input gid
     else mret (session, [])) w = (Ret loaded, w1)
    ∧ (fetch_clicked = false → loaded.1 = session)
    ∧ (is_Some session → is_Some loaded.1))
    as (loaded & w1 & -> & Hkeep & Hsome).
  { destruct fetch_clicked; [|by eexists _, _].
    unfold fetch_data. destruct (negb (Py.truthy sheet_input)); [by eexists _, _|].
    unfold try_except, mbind, IO_bind, load_sheet_via_csv, mret, IO_ret.
    destruct (read_csv _ w) as [[df|e] w1]; [|by eexists _, _].
    destruct (bool_decide ("Date" ∈ columns df)); [|by eexists _, _].
    destruct (to_datetime _ w1) as [[parsed|e] w2]; [|by eexists _, _].
    eexists _, _. split; [reflexivity|]. split; [done|]. by eauto. }
  unfold mbind, IO_bind.
  destruct (main_content_returns Hpath loaded.1 selected_date clicked w1)
    as (shown & w2 & ->).
  by eexists _, _, _.
Qed.

Lemma main_keeps_session_witness :
  ∃ session' events w',
    @main Demo.external DemoSheet.pandas (Some [Demo.row_a]) true "UNKNOWN" ""
      (Date 2024 5 1) false []
    = (Ret (session', events), w')
    ∧ (true = false → session' = Some [Demo.row_a])
    ∧ (is_Some (Some [Demo.row_a]) → is_Some session').
Proof.
  apply (@main_keeps_session Demo.external DemoSheet.pandas).
  intros w. by exists true, w.
Defined.

(** ** Entry names *)

Lemma count_space_uint (u : Decimal.uint) :
  Py.count " " (NilEmpty.string_of_uint u) = 0.
Proof. induction u; simpl; done. Qed.

Lemma count_concat (x : ascii) (l : list string) :
  Forall (λ s, Py.count x s = 0) l → Py.count x (String.concat "" l) = 0.
Proof.
  induction l as [|s l IH]; [done|]. intros [Hs Hl]%Forall_cons.
  destruct l as [|t l]; [done|].
  change (String.concat "" (s :: t :: l))
    with (s +:+ "" +:+ String.concat "" (t :: l)).
  rewrite !count_app, Hs, (IH Hl). done.
Qed.

Lemma count_space_zeros (n : nat) :
  Py.count " " (String.concat "" (replicate n "0")) = 0.
Proof. apply count_concat, Forall_replicate. done. Qed.

Lemma count_space_fmt_d (width n : nat) : Py.count " " (fmt_d width n) = 0.
Proof.
  unfold fmt_d. by rewrite count_app, count_space_zeros, count_space_uint.
Qed.

Lemma count_space_underscored (s : string) :
  Py.count " " (spaces_to_underscores s) = 0.
Proof.
  induction s as [|c s IH]; [done|]. simpl. rewrite IH.
  destruct (Ascii.eqb_spec c " ") as [->|Hne]; [done|].
  by destruct (Ascii.eqb_spec c " ").
Qed.

(** X22. An entry name never contains a space, whatever the row and the
    date. *)
Theorem entry_filename_no_space (selected_date : date) (row : gmap string cell) :
  Py.count " " (entry_filename selected_date row) = 0.
Proof.
  unfold entry_filename.
  destruct (parse_site_name _) as [[zone unit_code] sitename].
  rewrite replace_space. unfold isoformat.
  rewrite !count_app, !count_space_fmt_d, count_space_underscored. done.
Qed.

Lemma parse_site_name_join (zone unit_code site_name : string) :
  Py.count "-" zone = 0 → Py.count "-" unit_code = 0 →
  parse_site_name (CStr (Py.join "-" [zone; unit_code; site_name]))
  = (Py.strip zone, Py.strip unit_code, Py.strip site_name).
Proof.
  intros Hz Hu. unfold parse_site_name. cbn [Py.join].
  change (zone +:+ "-" +:+ unit_code +:+ "-" +:+ site_name)
    with (zone +:+ String "-" (unit_code +:+ String "-" site_name)).
  rewrite split_first by done. rewrite split_first by done.
  by rewrite split_zero.
Qed.

(** X23. The entry name depends on the site name alone: two rows whose
    labels differ in zone or unit code only get the same entry name, so
    a batch with both writes two archive entries under one name. *)
Theorem entry_filename_ignores_zone_and_unit (selected_date : date)
    (row1 row2 : gmap string cell) (zone1 unit1 zone2 unit2 site_name : string) :
  Py.count "-" zone1 = 0 → Py.count "-" unit1 = 0 →
  Py.count "-" zone2 = 0 → Py.count "-" unit2 = 0 →
  row1 !! "Site Name" = Some (CStr (Py.join "-" [zone1; unit1; site_name])) →
  row2 !! "Site Name" = Some (CStr (Py.join "-" [zone2; unit2; site_name])) →
  entry_filename selected_date row1 = entry_filename selected_date row2.
Proof.
  intros Hz1 Hu1 Hz2 Hu2 H1 H2. unfold entry_filename, row_get.
  rewrite H1, H2. cbn [from_option id].
  by rewrite !parse_site_name_join.
Qed.

Lemma entry_filename_ignores_zone_and_unit_witness :
  entry_filename (Date 2024 5 1) {[ "Site Name" := CStr "4-361-Candid Manesar" ]}
  = entry_filename (Date 2024 5 1) {[ "Site Name" := CStr "4-362-Candid Manesar" ]}.
Proof.
  apply (entry_filename_ignores_zone_and_unit (Date 2024 5 1)
           {[ "Site Name" := CStr "4-361-Candid Manesar" ]}
           {[ "Site Name" := CStr "4-362-Candid Manesar" ]}
           "4" "361" "4" "362" "Candid Manesar"); reflexivity.
Defined.

(** ** One download *)

(** X25. A download never raises, and it returns a payload exactly when
    the link has a file identifier and the request for it is answered
    with status 200 and a content type that starts with [image/]; the
    payload is then the body of the answer.  An answer without content
    type gives nothing. *)
Theorem download_drive_image_payload `{External} (url : string) (w : World) :
  (∃ r w', download_drive_image url w = (Ret r, w'))
  ∧ (∀ b w',
       download_drive_image url w = (Ret (Some b), w') ↔
       ∃ resp,
         extract_drive_file_id url ≠ ""
         ∧ requests_get ("https://drive.google.com/uc?export=download&id="
                         +:+ extract_drive_file_id url) w = (Ret resp, w')
         ∧ status_code resp = 200%Z
         ∧ Py.startswith "image/" (default "" (headers resp !! "content-type")) = true
         ∧ content resp = b)
  ∧ (∀ resp w',
       requests_get ("https://drive.google.com/uc?export=download&id="
                     +:+ extract_drive_file_id url) w = (Ret resp, w') →
       headers resp !! "content-type" = None →
       (download_drive_image url w).1 = Ret None).
Proof.
  rewrite download_drive_image_run.
  destruct (extract_drive_file_id url) as [|c fid] eqn:Hid.
  - split; [by eauto|]. split; [|done].
    intros b w'. split; [done|]. by intros (resp & ? & _).
  - destruct (requests_get _ w) as [r w1] eqn:Hget. cbn zeta.
    split; [by eauto|]. split.
    + intros b w'. unfold accepted. split.
      * intros [= Hacc <-]. destruct r as [resp|e]; [|done].
        destruct (Z.eqb_spec (status_code resp) 200) as [Hst|]; [|done].
        destruct (Py.startswith "image/" _) eqn:Hct; [|done].
        simpl in Hacc. injection Hacc as <-. by exists resp.
      * intros (resp & _ & [= -> ->] & Hst & Hct & <-).
        by rewrite Hst, Hct.
    + intros resp w' [= -> ->] Hnone. simpl. rewrite Hnone. simpl.
      by destruct (status_code resp =? 200)%Z.
Qed.

Lemma download_drive_image_payload_witness :
  @download_drive_image Demo.external "https://drive.google.com/open?id=GOOD" []
  = (Ret (Some Demo.png), ["GET https://drive.google.com/uc?export=download&id=GOOD"]).
Proof.
  apply (proj1 (proj2 (@download_drive_image_payload Demo.external
                         "https://drive.google.com/open?id=GOOD" []))).
  exists (Response 200 {["content-type" := "image/png"]} Demo.png).
  repeat split; try reflexivity. discriminate.
Defined.
